(** * Admin service: login, lockout, session verification and tokens

    A shallow embedding of the authentication core of the admin service:
    - [auth.service.ts]     ([login]),
    - [auth.controller.ts]  ([login] controller, here [Controller.login]),
    - [auth.middleware.ts]  ([authenticate]),
    - [utils/jwt.ts]        (token issue and verification),
    - [utils/response.ts]   ([sendError], [sendSuccess], ...).

    The relational store is a record of tables; every SQL statement and
    every stored-procedure call is one atomic transformation of it.
    Exceptions are JavaScript [Error]s, represented by their message. *)

From Stdlib Require Import ZArith List String Ascii Bool Lia DecimalString.
Import ListNotations.

Local Open Scope Z_scope.
Local Open Scope string_scope.

(** ** JavaScript helpers *)

Module Js.

(** Truthiness of a value that is a string, [null] or [undefined]. *)
Definition truthy (v : option string) : bool :=
  match v with
  | Some s => negb (s =? "")
  | None => false
  end.

(** [v || d] for such a value. *)
Definition or_else (v : option string) (d : string) : string :=
  match v with
  | Some s => if s =? "" then d else s
  | None => d
  end.

(** [s.includes(pat)] *)
Fixpoint includes (s pat : string) : bool :=
  prefix pat s ||
  match s with
  | EmptyString => false
  | String _ rest => includes rest pat
  end.

(** [s.startsWith(p)] *)
Definition startsWith (s p : string) : bool := prefix p s.

(** [s.substring(n)] *)
Definition substring_from (n : nat) (s : string) : string :=
  substring n (String.length s - n) s.

End Js.

(** ** Tokens ([utils/jwt.ts] over the jsonwebtoken library) *)

Module JWTPayload.

Record t := mk {
  admin_id : Z;
  username : string;
  email : string;
  role : string;
  session_id : string
}.

Definition eqb (a b : t) : bool :=
  (admin_id a =? admin_id b)%Z && (username a =? username b) &&
  (email a =? email b) && (role a =? role b) &&
  (session_id a =? session_id b).

End JWTPayload.

Module Jwt.

(** The signed part of a token: the claims with the issue and expiry
    instants (seconds). *)
Record Body := mkBody {
  claims : JWTPayload.t;
  iat : Z;
  exp : Z
}.

Definition body_eqb (a b : Body) : bool :=
  JWTPayload.eqb (claims a) (claims b) &&
  (iat a =? iat b)%Z && (exp a =? exp b)%Z.

(** A token as the library sees it.  The signature is symbolic: an
    HMAC is determined by the key and the bytes it was computed over,
    and matches nothing else. *)
Inductive Token :=
| Malformed (raw : string)
| Jws (body : Body) (mac_key : string) (mac_body : Body).

Definition digit (c : ascii) : option Z :=
  let n := nat_of_ascii c in
  if (48 <=? n)%nat && (n <=? 57)%nat then Some (Z.of_nat (n - 48)) else None.

Fixpoint digits (acc : Z) (s : string) : Z * string :=
  match s with
  | EmptyString => (acc, EmptyString)
  | String c rest =>
      match digit c with
      | Some d => digits (10 * acc + d) rest
      | None => (acc, s)
      end
  end.

(** Lower case of a letter, as the [i] flag of a regular expression
    compares it. *)
Definition lower (c : ascii) : ascii :=
  let n := nat_of_ascii c in
  if (65 <=? n)%nat && (n <=? 90)%nat then ascii_of_nat (n + 32) else c.

Fixpoint lowercase (s : string) : string :=
  match s with
  | EmptyString => EmptyString
  | String c rest => String (lower c) (lowercase rest)
  end.

(** The spaces the pattern allows between the number and its unit. *)
Fixpoint skip_spaces (s : string) : string :=
  match s with
  | EmptyString => EmptyString
  | String c rest => if Ascii.eqb c " " then skip_spaces rest else s
  end.

Definition one_of (names : list string) (u : string) : bool :=
  existsb (String.eqb u) names.

(** The milliseconds in one unit, by the unit's name in lower case; no
    unit stands for milliseconds. *)
Definition unit_ms (u : string) : option Z :=
  if one_of [""; "milliseconds"; "millisecond"; "msecs"; "msec"; "ms"] u then
    Some 1
  else if one_of ["seconds"; "second"; "secs"; "sec"; "s"] u then Some 1000
  else if one_of ["minutes"; "minute"; "mins"; "min"; "m"] u then Some 60000
  else if one_of ["hours"; "hour"; "hrs"; "hr"; "h"] u then Some 3600000
  else if one_of ["days"; "day"; "d"] u then Some 86400000
  else if one_of ["weeks"; "week"; "w"] u then Some 604800000
  else if one_of ["years"; "year"; "yrs"; "yr"; "y"] u then Some 31557600000
  else None.

(** [expiresIn] given as a string, in seconds, as the [ms] package reads
    it and the library adds it to the issue instant: at most 100
    characters; an optional minus sign and a decimal number, any spaces,
    then a unit in any case or none.  The milliseconds are turned into
    seconds rounding down.  A number with a fractional part ([1.5h]) is
    not read here: the package computes it in floating point. *)
Definition timespan (s : string) : option Z :=
  if (100 <? String.length s)%nat then None
  else
    let (negative, number) :=
      match s with
      | String "-" rest => (true, rest)
      | _ => (false, s)
      end in
    match number with
    | EmptyString => None
    | String c _ =>
        match digit c with
        | None => None
        | Some _ =>
            let (n, rest) := digits 0 number in
            match unit_ms (lowercase (skip_spaces rest)) with
            | Some per_unit =>
                Some ((if negative then - n else n) * per_unit / 1000)
            | None => None
            end
        end
    end.

(** [jwt.sign(payload, secret, { expiresIn })] at instant [now]. *)
Definition sign (now : Z) (payload : JWTPayload.t) (secret expiresIn : string)
  : string + Token :=
  match timespan expiresIn with
  | None => inl "expiresIn should be a number of seconds or string representing a timespan"
  | Some life =>
      let b := mkBody payload now (now + life) in
      inr (Jws b secret b)
  end.

(** [jwt.verify(token, secret)] at instant [now]. *)
Definition verify (now : Z) (token : Token) (secret : string)
  : string + JWTPayload.t :=
  match token with
  | Malformed _ => inl "jwt malformed"
  | Jws b k signed =>
      if (k =? secret) && body_eqb signed b then
        if (now >=? exp b)%Z then inl "jwt expired" else inr (claims b)
      else inl "invalid signature"
  end.

(** [jwt.decode(token)]: the claims, read without any check. *)
Definition decode (token : Token) : option JWTPayload.t :=
  match token with
  | Malformed _ => None
  | Jws b _ _ => Some (claims b)
  end.

End Jwt.

(** [process.env], as far as [utils/jwt.ts] reads it. *)
Record Env := mkEnv {
  env_JWT_SECRET : option string;
  env_JWT_EXPIRES_IN : option string;
  env_JWT_REFRESH_SECRET : option string;
  env_JWT_REFRESH_EXPIRES_IN : option string
}.

Definition JWT_SECRET (env : Env) : string :=
  Js.or_else (env_JWT_SECRET env) "your_jwt_secret_key".
Definition JWT_EXPIRES_IN (env : Env) : string :=
  Js.or_else (env_JWT_EXPIRES_IN env) "8h".
Definition JWT_REFRESH_SECRET (env : Env) : string :=
  Js.or_else (env_JWT_REFRESH_SECRET env) "your_refresh_secret".
Definition JWT_REFRESH_EXPIRES_IN (env : Env) : string :=
  Js.or_else (env_JWT_REFRESH_EXPIRES_IN env) "7d".

Definition generateAccessToken (env : Env) (now : Z) (payload : JWTPayload.t)
  : string + Jwt.Token :=
  Jwt.sign now payload (JWT_SECRET env) (JWT_EXPIRES_IN env).

Definition generateRefreshToken (env : Env) (now : Z) (payload : JWTPayload.t)
  : string + Jwt.Token :=
  Jwt.sign now payload (JWT_REFRESH_SECRET env) (JWT_REFRESH_EXPIRES_IN env).

Definition verifyAccessToken (env : Env) (now : Z) (token : Jwt.Token)
  : string + JWTPayload.t :=
  match Jwt.verify now token (JWT_SECRET env) with
  | inr payload => inr payload
  | inl _ => inl "Invalid or expired token"
  end.

Definition verifyRefreshToken (env : Env) (now : Z) (token : Jwt.Token)
  : string + JWTPayload.t :=
  match Jwt.verify now token (JWT_REFRESH_SECRET env) with
  | inr payload => inr payload
  | inl _ => inl "Invalid or expired refresh token"
  end.

(** Decode token without verification. *)
Definition decodeToken (token : Jwt.Token) : option JWTPayload.t :=
  Jwt.decode token.

(** The environment with none of the four variables set. *)
Definition env_unset : Env := mkEnv None None None None.

(** ** The relational store *)

Module AdminUser.

(** A row of [admin_users]. Instants are seconds; [locked_until] is
    [NULL] or an instant. *)
Record t := mk {
  admin_id : Z;
  username : string;
  email : string;
  password_hash : string;
  role : string;
  is_active : bool;
  failed_login_attempts : Z;
  locked_until : option Z;
  mfa_enabled : bool
}.

Definition set_failed_login_attempts (v : Z) (u : t) : t :=
  mk (admin_id u) (username u) (email u) (password_hash u) (role u)
     (is_active u) v (locked_until u) (mfa_enabled u).

Definition set_locked_until (v : option Z) (u : t) : t :=
  mk (admin_id u) (username u) (email u) (password_hash u) (role u)
     (is_active u) (failed_login_attempts u) v (mfa_enabled u).

End AdminUser.

Module AdminSession.

(** A row of [admin_sessions]. *)
Record t := mk {
  session_id : string;
  admin_id : Z;
  ip_address : option string;
  user_agent : option string;
  created_at : Z;
  expires_at : Z;
  is_active : bool
}.

End AdminSession.

Module ActivityLog.

(** A row of [activity_log]. *)
Record t := mk {
  log_type : string;
  activity_type : string;
  message : string;
  created_by : string;
  start_time : Z;
  ip_address : option string
}.

End ActivityLog.

Record Db := mkDb {
  admin_users : list AdminUser.t;
  admin_sessions : list AdminSession.t;
  activity_log : list ActivityLog.t
}.

Definition with_admin_users (us : list AdminUser.t) (d : Db) : Db :=
  mkDb us (admin_sessions d) (activity_log d).

(** [SELECT ... FROM admin_users WHERE username = ? OR email = ?] with
    both parameters bound to [ident]; the rows are returned whole. *)
Definition select_user (d : Db) (ident : string) : list AdminUser.t :=
  filter (fun u => (AdminUser.username u =? ident) || (AdminUser.email u =? ident))
         (admin_users d).

(** [DATE_ADD(t, INTERVAL n MINUTE)] *)
Definition date_add_minutes (t n : Z) : Z := t + n * 60.

(** The [SET] list of the failed-login [UPDATE], applied to one row at
    instant [now]:
<<
    SET failed_login_attempts = failed_login_attempts + 1,
        locked_until = CASE
          WHEN failed_login_attempts + 1 >= 5 THEN DATE_ADD(NOW(), INTERVAL 30 MINUTE)
          ELSE NULL
        END
>>
    The store is MySQL, which evaluates the assignments of a single-table
    [UPDATE] from left to right, a later assignment reading the value an
    earlier one has just given to a column (MySQL Reference Manual,
    UPDATE Statement: [SET col1 = col1 + 1, col2 = col1] leaves both
    columns equal).  The [CASE] therefore reads the incremented counter. *)
Definition update_failed_login_row (now : Z) (u : AdminUser.t) : AdminUser.t :=
  let u1 :=
    AdminUser.set_failed_login_attempts (AdminUser.failed_login_attempts u + 1) u in
  AdminUser.set_locked_until
    (if (AdminUser.failed_login_attempts u1 + 1 >=? 5)%Z
     then Some (date_add_minutes now 30)
     else None)
    u1.

(** [UPDATE admin_users SET ... WHERE admin_id = ?] *)
Definition update_failed_login (now : Z) (id : Z) (d : Db) : Db :=
  with_admin_users
    (map (fun u => if (AdminUser.admin_id u =? id)%Z
                   then update_failed_login_row now u else u)
         (admin_users d))
    d.

(** The same [SET] list read with the assignments of standard SQL, every
    right-hand side seeing the row as it was before the statement.  Kept
    for comparison only; the service does not run on it. *)
Definition update_failed_login_row_simultaneous (now : Z) (u : AdminUser.t)
  : AdminUser.t :=
  AdminUser.set_locked_until
    (if (AdminUser.failed_login_attempts u + 1 >=? 5)%Z
     then Some (date_add_minutes now 30)
     else None)
    (AdminUser.set_failed_login_attempts (AdminUser.failed_login_attempts u + 1) u).

(** ** Effects *)

(** What a request does besides computing: the statements it sends to
    the store and the password comparisons it runs, in order. *)
Inductive Event :=
| EvSelectUser (ident : string)
| EvUpdateFailedLogin (id : Z)
| EvCall (procedure : string) (params : list (option string))
| EvBcryptCompare (plain hash : string).

Record World := mkWorld {
  db : Db;
  events : list Event
}.

Definition emit (e : Event) (w : World) : World :=
  mkWorld (db w) (events w ++ [e])%list.

(** A computation that reads and writes the world and may throw an
    [Error], kept as its message. *)
Definition M (A : Type) : Type := World -> (string + A) * World.

Definition ret {A} (a : A) : M A := fun w => (inr a, w).

Definition throw {A} (msg : string) : M A := fun w => (inl msg, w).

Definition bind {A B} (m : M A) (k : A -> M B) : M B :=
  fun w =>
    match m w with
    | (inr a, w') => k a w'
    | (inl e, w') => (inl e, w')
    end.

Definition lift {A} (r : string + A) : M A := fun w => (r, w).

Notation "x <- m ;; k" := (bind m (fun x => k))
  (at level 61, m at next level, right associativity).
Notation "m ;;; k" := (bind m (fun _ => k))
  (at level 61, right associativity).

(** ** The login service ([auth.service.ts]) *)

Module LoginRow.

(** First row of the first result set of [CALL admin_auth_login(...)].
    A [fail] row carries the error columns; the account and session
    columns are meaningful on a [success] row only. *)
Record t := mk {
  status : string;
  error_type : option string;
  error_code : option string;
  error_message : option string;
  admin_id : Z;
  username : string;
  email : string;
  role : string;
  session_id : string;
  expires_at : Z;
  mfa_enabled : bool
}.

End LoginRow.

Record LoginRequest := mkLoginRequest {
  req_username : string;
  req_password : string
}.

(** [{ ...loginResult, access_token, refresh_token }] *)
Record LoginResult := mkLoginResult {
  row : LoginRow.t;
  access_token : Jwt.Token;
  refresh_token : Jwt.Token
}.

(** [new Error(v).message] for a column that may be [NULL]. *)
Definition error_text (v : option string) : string :=
  match v with
  | Some m => m
  | None => "null"
  end.

(** [v || null] *)
Definition or_null (v : option string) : option string :=
  if Js.truthy v then v else None.

(** [user.locked_until && new Date(user.locked_until) > new Date()] *)
Definition locked_at (now : Z) (u : AdminUser.t) : bool :=
  match AdminUser.locked_until u with
  | Some t => (now <? t)%Z
  | None => false
  end.

Section AuthService.

(** [bcrypt.compare] *)
Variable bcrypt_compare : string -> string -> bool.

(** How a [locked_until] value prints inside a template string. *)
Variable date_to_string : Z -> string.

(** The stored procedure [admin_auth_login], run at an instant on the
    parameters (username, password hash, IP address, user agent). *)
Variable admin_auth_login :
  Z -> string -> string -> option string -> option string ->
  Db -> list (list LoginRow.t) * Db.

Variable env : Env.

(** The instant of the request. *)
Variable now : Z.

Definition executeQuery_select_user (ident : string) : M (list AdminUser.t) :=
  fun w => (inr (select_user (db w) ident), emit (EvSelectUser ident) w).

Definition executeQuery_update_failed_login (id : Z) : M unit :=
  fun w =>
    (inr tt,
     emit (EvUpdateFailedLogin id) (mkWorld (update_failed_login now id (db w)) (events w))).

Definition executeProcedure_login (username hash : string)
    (ip ua : option string) : M (list (list LoginRow.t)) :=
  fun w =>
    let (results, d) := admin_auth_login now username hash ip ua (db w) in
    (inr results,
     emit (EvCall "admin_auth_login" [Some username; Some hash; ip; ua])
          (mkWorld d (events w))).

Definition compare_password (plain hash : string) : M bool :=
  fun w => (inr (bcrypt_compare plain hash), emit (EvBcryptCompare plain hash) w).

(** [login], from the rows the first query returned onwards. *)
Definition login_with_rows (loginData : LoginRequest)
    (ipAddress userAgent : option string) (users : list AdminUser.t)
  : M LoginResult :=
  let username := req_username loginData in
  let password := req_password loginData in
  match users with
  | [] => throw "Invalid username or password"
  | user :: _ =>
      (* Check if account is locked *)
      if locked_at now user then
        throw ("Account is locked until "
               ++ match AdminUser.locked_until user with
                  | Some t => date_to_string t
                  | None => "null"
                  end)
      (* Check if account is active *)
      else if negb (AdminUser.is_active user) then
        throw "Account is inactive"
      else
        (* Verify password with bcrypt *)
        isPasswordValid <- compare_password password (AdminUser.password_hash user) ;;
        if negb isPasswordValid then
          (* Increment failed login attempts *)
          executeQuery_update_failed_login (AdminUser.admin_id user) ;;;
          throw "Invalid username or password"
        else
          (* Password is valid, now call the login procedure to create session *)
          results <- executeProcedure_login username (AdminUser.password_hash user)
                       (or_null ipAddress) (or_null userAgent) ;;
          match results with
          | [] => throw "Login failed"
          | [] :: _ => throw "Cannot read properties of undefined (reading 'status')"
          | (loginResult :: _) :: _ =>
              if LoginRow.status loginResult =? "fail" then
                throw (error_text (LoginRow.error_message loginResult))
              else
                let payload :=
                  JWTPayload.mk (LoginRow.admin_id loginResult)
                                (LoginRow.username loginResult)
                                (LoginRow.email loginResult)
                                (LoginRow.role loginResult)
                                (LoginRow.session_id loginResult) in
                accessToken <- lift (generateAccessToken env now payload) ;;
                refreshToken <- lift (generateRefreshToken env now payload) ;;
                ret (mkLoginResult loginResult accessToken refreshToken)
          end
  end.

(** [login(loginData, ipAddress, userAgent)] *)
Definition login (loginData : LoginRequest) (ipAddress userAgent : option string)
  : M LoginResult :=
  (* First, get the user's stored password hash *)
  users <- executeQuery_select_user (req_username loginData) ;;
  login_with_rows loginData ipAddress userAgent users.

End AuthService.

(** ** The values of a JSON body *)

Module JsValue.

(** What the JSON body parser can leave in a field of [req.body].
    [Num] is a whole number; [Other] stands for every remaining value (a
    number with a fraction, an array, an object), given by its JSON text. *)
Inductive t :=
| Undefined
| Null
| Str (s : string)
| Num (n : Z)
| Bool (b : bool)
| Other (json : string).

(** Truthiness ([!v] is its negation): arrays and objects are truthy,
    and a number with a fraction is not zero. *)
Definition truthy (v : t) : bool :=
  match v with
  | Undefined | Null => false
  | Str s => negb (s =? "")
  | Num n => negb (n =? 0)%Z
  | Bool b => b
  | Other _ => true
  end.

(** A field that is a string or is missing. *)
Definition of_option (v : option string) : t :=
  match v with
  | Some s => Str s
  | None => Undefined
  end.

End JsValue.

(** ** [login] on the fields of the body

    [LoginRequest] declares both fields as strings, but the declaration
    is gone at run time and the controller hands [req.body] over as it
    came. *)

Section LoginOnValues.

Variable bcrypt_compare : string -> string -> bool.

(** The message of the error [bcrypt.compare] rejects with when the data
    it is given is not a string. *)
Variable bcrypt_rejection : JsValue.t -> string.

Variable date_to_string : Z -> string.
Variable admin_auth_login :
  Z -> string -> string -> option string -> option string ->
  Db -> list (list LoginRow.t) * Db.

(** [login] on a username that is not a string.  What the first query
    returns then depends on how the driver binds such a parameter; it is
    left open. *)
Variable login_other_username :
  JsValue.t -> JsValue.t -> option string -> option string -> M LoginResult.

Variable env : Env.
Variable now : Z.

(** [login(loginData, ipAddress, userAgent)] on any two values.  With a
    password that is not a string the function runs as [login] does up
    to the comparison, which [bcrypt.compare] rejects: the error leaves
    [login] before any counter is written. *)
Definition login_values (username password : JsValue.t)
    (ipAddress userAgent : option string) : M LoginResult :=
  match username with
  | JsValue.Str u =>
      match password with
      | JsValue.Str p =>
          login bcrypt_compare date_to_string admin_auth_login env now
                (mkLoginRequest u p) ipAddress userAgent
      | _ =>
          users <- executeQuery_select_user u ;;
          match users with
          | [] => throw "Invalid username or password"
          | user :: _ =>
              if locked_at now user then
                throw ("Account is locked until "
                       ++ match AdminUser.locked_until user with
                          | Some t => date_to_string t
                          | None => "null"
                          end)
              else if negb (AdminUser.is_active user) then
                throw "Account is inactive"
              else
                throw (bcrypt_rejection password)
          end
      end
  | _ => login_other_username username password ipAddress userAgent
  end.

End LoginOnValues.

(** ** Responses ([utils/response.ts]) *)

(** The JSON body and status of a reply.  [data] is only ever a login
    result here. *)
Record Response := mkResponse {
  statusCode : Z;
  success : bool;
  data : option LoginResult;
  code : option string;
  message : option string;
  details : option string;
  timestamp : Z
}.

Section Replies.

Variable now : Z.

Definition sendSuccess (result : LoginResult) : Response :=
  mkResponse 200 true (Some result) None None None now.

Definition sendError (status : Z) (c : string) (msg : option string)
    (det : option string) : Response :=
  mkResponse status false None (Some c) msg (or_null det) now.

Definition sendUnauthorized (msg : option string) : Response :=
  sendError 401 "48000" msg None.

Definition sendInternalError (msg : string) (det : option string) : Response :=
  sendError 500 "52000" (Some msg) det.

End Replies.

(** ** The login controller ([auth.controller.ts]) *)

(** [req.body] after the JSON body parser: each field holds whatever
    value the client sent, or is missing. *)
Record LoginBody := mkLoginBody {
  body_username : JsValue.t;
  body_password : JsValue.t
}.

Record Request := mkRequest {
  body : LoginBody;
  ip : option string;
  remoteAddress : option string;
  user_agent : option string;
  authorization : option string
}.

(** [a || b] *)
Definition js_or (a b : option string) : option string :=
  if Js.truthy a then a else b.

Module Controller.

Section Login.

Variable bcrypt_compare : string -> string -> bool.
Variable bcrypt_rejection : JsValue.t -> string.
Variable date_to_string : Z -> string.
Variable admin_auth_login :
  Z -> string -> string -> option string -> option string ->
  Db -> list (list LoginRow.t) * Db.
Variable login_other_username :
  JsValue.t -> JsValue.t -> option string -> option string -> M LoginResult.
Variable env : Env.
Variable now : Z.

(** Map error messages to appropriate status codes. *)
Definition login_error (msg : string) : Response :=
  if Js.includes msg "Invalid username or password" then
    sendError now 401 "48002" (Some msg) None
  else if Js.includes msg "locked" then
    sendError now 403 "48003" (Some msg) None
  else if Js.includes msg "inactive" then
    sendError now 403 "48004" (Some msg) None
  else
    sendInternalError now "Login failed" (Some msg).

Definition login (req : Request) (w : World) : Response * World :=
  let loginData := body req in
  let ipAddress := js_or (ip req) (remoteAddress req) in
  let userAgent := user_agent req in
  (* Validate required fields *)
  if negb (JsValue.truthy (body_username loginData))
     || negb (JsValue.truthy (body_password loginData)) then
    (sendError now 400 "50000" (Some "Username and password are required") None, w)
  else
    (* Attempt login *)
    match login_values bcrypt_compare bcrypt_rejection date_to_string
                       admin_auth_login login_other_username env now
                       (body_username loginData) (body_password loginData)
                       ipAddress userAgent w with
    | (inr result, w') => (sendSuccess now result, w')
    | (inl msg, w') => (login_error msg, w')
    end.

End Login.

End Controller.

(** ** The authentication middleware ([auth.middleware.ts]) *)

Module SessionRow.

(** First row of the first result set of
    [CALL admin_auth_verify_session(?)]. *)
Record t := mk {
  status : string;
  error_message : option string;
  admin_id : Z;
  username : string;
  email : string;
  role : string;
  mfa_enabled : bool;
  session_id : string
}.

End SessionRow.

Module Principal.

(** [req.admin] *)
Record t := mk {
  admin_id : Z;
  username : string;
  email : string;
  role : string;
  mfa_enabled : bool;
  is_active : bool;
  failed_login_attempts : Z;
  created_at : Z;
  updated_at : Z
}.

End Principal.

(** How the middleware leaves the request: handed on with [req.admin]
    and [req.session_id] set, or answered. *)
Inductive AuthOutcome :=
| Next (admin : Principal.t) (session_id : string)
| Sent (reply : Response).

Section Middleware.

(** The token a compact serialization denotes. *)
Variable wire : string -> Jwt.Token.

(** The stored procedure [admin_auth_verify_session], run at an instant
    on a session id. *)
Variable admin_auth_verify_session :
  Z -> string -> Db -> list (list SessionRow.t) * Db.

Variable env : Env.
Variable now : Z.

Definition executeProcedure_verify_session (sid : string)
  : World -> list (list SessionRow.t) * World :=
  fun w =>
    let (results, d) := admin_auth_verify_session now sid (db w) in
    (results,
     emit (EvCall "admin_auth_verify_session" [Some sid]) (mkWorld d (events w))).

Definition authenticate (req : Request) (w : World) : AuthOutcome * World :=
  (* Get token from Authorization header *)
  let authHeader := authorization req in
  if negb (Js.truthy authHeader)
     || negb (Js.startsWith (Js.or_else authHeader "") "Bearer ") then
    (Sent (sendUnauthorized now (Some "No token provided")), w)
  else
    let token := Js.substring_from 7 (Js.or_else authHeader "") in
    (* Verify JWT token *)
    match verifyAccessToken env now (wire token) with
    | inl _ => (Sent (sendUnauthorized now (Some "Invalid or expired token")), w)
    | inr payload =>
        (* Verify session in database *)
        let (results, w') :=
          executeProcedure_verify_session (JWTPayload.session_id payload) w in
        match results with
        | [] => (Sent (sendUnauthorized now (Some "Session not found")), w')
        | sessionData :: _ =>
            match sessionData with
            | [] =>
                (* reading a column of [undefined] throws; the outer
                   handler answers *)
                (Sent (sendInternalError now "Authentication failed" None), w')
            | r :: _ =>
                (* Check for errors from procedure *)
                if SessionRow.status r =? "fail" then
                  (Sent (sendUnauthorized now (SessionRow.error_message r)), w')
                else
                  (* Attach admin user to request *)
                  (Next (Principal.mk (SessionRow.admin_id r)
                                      (SessionRow.username r)
                                      (SessionRow.email r)
                                      (SessionRow.role r)
                                      (SessionRow.mfa_enabled r)
                                      true 0 now now)
                        (SessionRow.session_id r),
                   w')
            end
        end
    end.

End Middleware.

(** ** The stored procedures *)

Section Procedures.

(** Session identifiers, by number of sessions already stored. *)
Variable uuid : nat -> string.

(** Lifetime of a session, in seconds. *)
Variable session_ttl : Z.

Definition lock_threshold : Z := 5.
Definition lock_duration_minutes : Z := 30.

Definition update_account (id : Z) (f : AdminUser.t -> AdminUser.t) (d : Db) : Db :=
  with_admin_users
    (map (fun u => if (AdminUser.admin_id u =? id)%Z then f u else u) (admin_users d))
    d.

(** Modelled from the spec: the Lockout Ledger's [recordFailure], whose
    code inside the stored procedure is not among the sources.  The
    counter is incremented; if the new value reaches the threshold the
    lock is set to [now] plus the lock duration, otherwise it is left
    null. *)
Definition recordFailure (now : Z) (id : Z) (d : Db) : Db :=
  update_account id
    (fun u =>
       let n := AdminUser.failed_login_attempts u + 1 in
       AdminUser.set_locked_until
         (if (n >=? lock_threshold)%Z
          then Some (date_add_minutes now lock_duration_minutes)
          else None)
         (AdminUser.set_failed_login_attempts n u))
    d.

(** Modelled from the spec: the Lockout Ledger's [recordSuccess], whose
    code inside the stored procedure is not among the sources.  It sets
    the counter to 0 and the lock to null. *)
Definition recordSuccess (id : Z) (d : Db) : Db :=
  update_account id
    (fun u => AdminUser.set_locked_until None (AdminUser.set_failed_login_attempts 0 u))
    d.

Definition appendActivityLog (entry : ActivityLog.t) (d : Db) : Db :=
  mkDb (admin_users d) (admin_sessions d) (activity_log d ++ [entry])%list.

Definition createSession (s : AdminSession.t) (d : Db) : Db :=
  mkDb (admin_users d) (admin_sessions d ++ [s])%list (activity_log d).

Definition fail_row (c msg : string) : LoginRow.t :=
  LoginRow.mk "fail" (Some "Authentication Error") (Some c) (Some msg)
              0 "" "" "" "" 0 false.

Definition login_log (now : Z) (kind tag text who : string) (ip : option string)
  : ActivityLog.t :=
  ActivityLog.mk kind tag text who now ip.

(** Modelled from the spec: the stored procedure [admin_auth_login],
    whose SQL is not among the sources (only its callers and its tests
    are).  It follows the login state machine of the spec: look the
    account up by username or email; not found fails as invalid
    credentials and writes no log; a locked account fails as locked; an
    inactive one as inactive; a hash that differs from the stored one
    records the failure, logs [invalid-password] and fails as invalid
    credentials; otherwise the success is recorded, a session is
    created, [login-success] is logged and the account summary is
    returned with the session id. *)
Definition admin_auth_login (now : Z) (ident hash : string)
    (ip ua : option string) (d : Db) : list (list LoginRow.t) * Db :=
  match select_user d ident with
  | [] => ([[fail_row "48002" "Invalid username or password"]], d)
  | account :: _ =>
      let who := AdminUser.username account in
      if locked_at now account then
        ([[fail_row "48003" "Account is locked"]],
         appendActivityLog
           (login_log now "ERROR" "account-locked" "Account is locked" who ip) d)
      else if negb (AdminUser.is_active account) then
        ([[fail_row "48004" "Account is inactive"]],
         appendActivityLog
           (login_log now "ERROR" "account-inactive" "Account is inactive" who ip) d)
      else if negb (hash =? AdminUser.password_hash account) then
        ([[fail_row "48002" "Invalid username or password"]],
         appendActivityLog
           (login_log now "ERROR" "invalid-password" "Invalid password" who ip)
           (recordFailure now (AdminUser.admin_id account) d))
      else
        let sid := uuid (List.length (admin_sessions d)) in
        let expiry := now + session_ttl in
        let d1 := recordSuccess (AdminUser.admin_id account) d in
        let d2 :=
          createSession
            (AdminSession.mk sid (AdminUser.admin_id account) ip ua now expiry true) d1 in
        let d3 :=
          appendActivityLog
            (login_log now "INFO" "login-success" "Login successful" who ip) d2 in
        ([[LoginRow.mk "success" None None None
                       (AdminUser.admin_id account) (AdminUser.username account)
                       (AdminUser.email account) (AdminUser.role account)
                       sid expiry (AdminUser.mfa_enabled account)]],
         d3)
  end.

Definition session_fail_row (msg : string) : SessionRow.t :=
  SessionRow.mk "fail" (Some msg) 0 "" "" "" false "".

(** Modelled from the spec: the stored procedure
    [admin_auth_verify_session], whose SQL is not among the sources.  The
    session must exist, be active and be unexpired; any failure is the
    one generic invalid-session failure; on success the owning account's
    current role, email and username are fetched again and returned with
    the session id. *)
Definition admin_auth_verify_session (now : Z) (sid : string) (d : Db)
  : list (list SessionRow.t) * Db :=
  match filter (fun s => AdminSession.session_id s =? sid) (admin_sessions d) with
  | [] => ([[session_fail_row "Invalid or expired session"]], d)
  | s :: _ =>
      if negb (AdminSession.is_active s) || (AdminSession.expires_at s <=? now)%Z then
        ([[session_fail_row "Invalid or expired session"]], d)
      else
        match filter (fun u => (AdminUser.admin_id u =? AdminSession.admin_id s)%Z)
                     (admin_users d) with
        | [] => ([[session_fail_row "Invalid or expired session"]], d)
        | u :: _ =>
            ([[SessionRow.mk "success" None (AdminUser.admin_id u)
                             (AdminUser.username u) (AdminUser.email u)
                             (AdminUser.role u) (AdminUser.mfa_enabled u) sid]],
             d)
        end
  end.

End Procedures.

(** ** Two login requests at once *)

(** Where a login request stands between its statements: not started,
    holding the rows of its [SELECT], or finished with its outcome. *)
Inductive Progress :=
| NotStarted
| Selected (users : list AdminUser.t)
| Finished (outcome : string + LoginResult).

Section Concurrent.

Variable bcrypt_compare : string -> string -> bool.
Variable date_to_string : Z -> string.
Variable admin_auth_login :
  Z -> string -> string -> option string -> option string ->
  Db -> list (list LoginRow.t) * Db.
Variable env : Env.
Variable now : Z.

(** One request advances to its next statement against the store.  The
    store runs each statement atomically; what the request holds in
    between is its own copy of the rows it read. *)
Definition advance (loginData : LoginRequest) (ip ua : option string)
    (p : Progress) (w : World) : Progress * World :=
  match p with
  | NotStarted =>
      match executeQuery_select_user (req_username loginData) w with
      | (inr users, w') => (Selected users, w')
      | (inl e, w') => (Finished (inl e), w')
      end
  | Selected users =>
      let (r, w') :=
        login_with_rows bcrypt_compare date_to_string admin_auth_login env now
                        loginData ip ua users w in
      (Finished r, w')
  | Finished r => (Finished r, w)
  end.

(** Two requests [a] and [b] under a schedule: [true] lets [a] advance,
    [false] lets [b] advance. *)
Fixpoint run_two (a b : LoginRequest) (schedule : list bool)
    (pa pb : Progress) (w : World) : Progress * Progress * World :=
  match schedule with
  | [] => (pa, pb, w)
  | true :: rest =>
      let (pa', w') := advance a None None pa w in
      run_two a b rest pa' pb w'
  | false :: rest =>
      let (pb', w') := advance b None None pb w in
      run_two a b rest pa pb' w'
  end.

(** The update a caller would make by writing back the counter it had
    read, plus one.  The service does not do this; kept to show what the
    single statement rules out. *)
Definition write_back_failed_login (seen : AdminUser.t) (d : Db) : Db :=
  update_account (AdminUser.admin_id seen)
    (AdminUser.set_failed_login_attempts (AdminUser.failed_login_attempts seen + 1))
    d.

End Concurrent.

(** The counter of the account a login identifier selects. *)
Definition failed_attempts_of (d : Db) (ident : string) : option Z :=
  match select_user d ident with
  | u :: _ => Some (AdminUser.failed_login_attempts u)
  | [] => None
  end.

Definition locked_until_of (d : Db) (ident : string) : option (option Z) :=
  match select_user d ident with
  | u :: _ => Some (AdminUser.locked_until u)
  | [] => None
  end.

(** How many failed-login [UPDATE]s for account [id] a run has sent. *)
Fixpoint updates_issued (id : Z) (evs : list Event) : Z :=
  match evs with
  | [] => 0
  | EvUpdateFailedLogin i :: more =>
      (if (i =? id)%Z then 1 else 0) + updates_issued id more
  | _ :: more => updates_issued id more
  end.

(** ** Sample data *)

Module Sample.

(** A stand-in for bcrypt: the hash of [p] is [p] behind a fixed prefix. *)
Definition bcrypt_compare (plain hash : string) : bool :=
  hash =? ("$2b$10$" ++ plain).

(** A stand-in for the printing of a date: the instant in decimal. *)
Definition date_to_string (t : Z) : string :=
  NilZero.string_of_int (Z.to_int t).

Definition uuid (n : nat) : string :=
  match n with
  | O => "6f1c0a52-0000"
  | S O => "6f1c0a52-0001"
  | _ => "6f1c0a52-0002"
  end.

Definition session_ttl : Z := 8 * 3600.

Definition session_claims (role : string) : JWTPayload.t :=
  JWTPayload.mk 1 "test_admin_valid" "test_admin@example.com" role "6f1c0a52-0000".

Definition session_token (role : string) : Jwt.Token :=
  let b := Jwt.mkBody (session_claims role) 1000 29800 in
  Jwt.Jws b "your_jwt_secret_key" b.

(** Two access tokens on the wire, for one session, with different
    roles embedded; anything else does not parse. *)
Definition wire (s : string) : Jwt.Token :=
  if s =? "token.admin.sig" then session_token "admin"
  else if s =? "token.viewer.sig" then session_token "viewer"
  else Jwt.Malformed s.

Definition valid_admin (attempts : Z) (lock : option Z) : AdminUser.t :=
  AdminUser.mk 1 "test_admin_valid" "test_admin@example.com"
               "$2b$10$TestAdmin@123" "admin" true attempts lock false.

Definition inactive_user : AdminUser.t :=
  AdminUser.mk 2 "test_admin_inactive" "test_inactive@example.com"
               "$2b$10$TestInactive@123" "admin" false 0 None false.

Definition store (attempts : Z) (lock : option Z) : Db :=
  mkDb [valid_admin attempts lock; inactive_user] [] [].

Definition world (attempts : Z) (lock : option Z) : World :=
  mkWorld (store attempts lock) [].

Definition world_with_session : World :=
  mkWorld
    (mkDb [valid_admin 0 None; inactive_user]
          [AdminSession.mk "6f1c0a52-0000" 1 (Some "127.0.0.1") (Some "test-agent")
                           1000 29800 true]
          [])
    [].

Definition bearer (t : string) : Request :=
  mkRequest (mkLoginBody JsValue.Undefined JsValue.Undefined) None None None
            (Some ("Bearer " ++ t)).

Definition proc := admin_auth_login uuid session_ttl.

Definition login := login bcrypt_compare date_to_string proc env_unset.

(** A stand-in for the message of the error bcrypt gives for data that
    is not a string.  The wording depends on the version of the
    package; none mentions invalid credentials, a lock or an inactive
    account. *)
Definition bcrypt_rejection (_ : JsValue.t) : string :=
  "data and hash must be strings".

(** A stand-in for a login whose username is not a string: the driver
    refuses the parameter. *)
Definition login_other_username (_ _ : JsValue.t) (_ _ : option string)
  : M LoginResult :=
  throw "Incorrect arguments to mysqld_stmt_execute".

Definition controller :=
  Controller.login bcrypt_compare bcrypt_rejection date_to_string proc
                   login_other_username env_unset.

(** A request whose body carries the two given values. *)
Definition request_of (u p : JsValue.t) : Request :=
  mkRequest (mkLoginBody u p) (Some "127.0.0.1") None (Some "test-agent") None.

(** A request whose two fields are strings or missing. *)
Definition request (u p : option string) : Request :=
  request_of (JsValue.of_option u) (JsValue.of_option p).

End Sample.

(** * The rest of the authentication layer *)

(** ** Replies with other payloads ([utils/response.ts]) *)

Record PaginationMeta := mkPaginationMeta {
  total_count : Z;
  page_limit : Z;
  page_offset : Z;
  total_pages : option Z;
  current_page : option Z
}.

(** [calculatePagination(total, limit, offset)] on integer arguments,
    of the size of row counts, where a quotient of doubles has the
    integer part of the exact quotient.  [Math.ceil(total / limit)] and
    [Math.floor(offset / limit) + 1] are then the integer ceiling and
    floor of the quotients when [limit] is not zero.  With [limit] zero
    both quotients are infinite or [NaN], which a JSON reply carries as
    [null]: [None] here. *)
Definition calculatePagination (total limit offset : Z) : PaginationMeta :=
  let totalPages :=
    if (limit =? 0)%Z then None else Some (- ((- total) / limit)) in
  let currentPage :=
    if (limit =? 0)%Z then None else Some (offset / limit + 1) in
  mkPaginationMeta total limit offset totalPages currentPage.

Module Api.

(** The reply of an endpoint whose payload has type [T]. *)
Record Reply (T : Type) := mkReply {
  statusCode : Z;
  success : bool;
  data : option T;
  code : option string;
  message : option string;
  details : option string;
  pagination : option PaginationMeta;
  timestamp : Z
}.

Arguments mkReply {T}.
Arguments statusCode {T}.
Arguments success {T}.
Arguments data {T}.
Arguments code {T}.
Arguments message {T}.
Arguments details {T}.
Arguments pagination {T}.
Arguments timestamp {T}.

Definition sendSuccess {T} (now : Z) (d : T) (meta : option PaginationMeta)
  : Reply T :=
  mkReply 200 true (Some d) None None None meta now.

Definition sendError {T} (now : Z) (status : Z) (c : string)
    (msg : option string) (det : option string) : Reply T :=
  mkReply status false None (Some c) msg (or_null det) None now.

Definition sendInternalError {T} (now : Z) (msg : string) (det : option string)
  : Reply T :=
  sendError now 500 "52000" (Some msg) det.

End Api.

(** [sendForbidden(res, message)] *)
Definition sendForbidden (now : Z) (msg : string) : Response :=
  sendError now 403 "49000" (Some msg) None.

(** ** Role-based authorization ([role.middleware.ts]) *)

(** [allowedRoles.includes(role)] *)
Definition role_allowed (allowedRoles : list string) (role : string) : bool :=
  existsb (fun r => r =? role) allowedRoles.

(** [requireRole(...allowedRoles)] applied to a request: [None] hands the
    request on, [Some reply] answers it. *)
Definition requireRole (allowedRoles : list string) (now : Z)
    (admin : option Principal.t) : option Response :=
  match admin with
  | None => Some (sendForbidden now "Authentication required")
  | Some a =>
      if negb (role_allowed allowedRoles (Principal.role a)) then
        Some (sendForbidden now "Insufficient permissions")
      else None
  end.

Definition requireAdmin := requireRole ["admin"].
Definition requireApprover := requireRole ["approver"; "admin"].
Definition requireAnyRole := requireRole ["viewer"; "approver"; "admin"].

(** ** Optional authentication ([auth.middleware.ts]) *)

Section OptionalAuth.

Variable wire : string -> Jwt.Token.
Variable admin_auth_verify_session :
  Z -> string -> Db -> list (list SessionRow.t) * Db.
Variable env : Env.
Variable now : Z.

(** [optionalAuth]: the request is always handed on, with [req.admin]
    and [req.session_id] set or not. *)
Definition optionalAuth (req : Request) (w : World)
  : option (Principal.t * string) * World :=
  let authHeader := authorization req in
  if negb (Js.truthy authHeader)
     || negb (Js.startsWith (Js.or_else authHeader "") "Bearer ") then
    (None, w)
  else
    let token := Js.substring_from 7 (Js.or_else authHeader "") in
    match verifyAccessToken env now (wire token) with
    | inl _ => (* Silently fail for optional auth *) (None, w)
    | inr payload =>
        let (results, w') :=
          executeProcedure_verify_session admin_auth_verify_session now
            (JWTPayload.session_id payload) w in
        match results with
        | (r :: _) :: _ =>
            if negb (SessionRow.status r =? "fail") then
              (Some (Principal.mk (SessionRow.admin_id r)
                                  (SessionRow.username r)
                                  (SessionRow.email r)
                                  (SessionRow.role r)
                                  (SessionRow.mfa_enabled r)
                                  true 0 now now,
                     SessionRow.session_id r),
               w')
            else (None, w')
        | _ => (None, w')
        end
    end.

(** A route behind [router.use(authenticate)] and one role middleware:
    the handler is reached with the principal, or the request is
    answered before it. *)
Definition guarded (allowedRoles : list string) (req : Request) (w : World)
  : (Principal.t * string + Response) * World :=
  match authenticate wire admin_auth_verify_session env now req w with
  | (Sent reply, w') => (inr reply, w')
  | (Next admin sid, w') =>
      match requireRole allowedRoles now (Some admin) with
      | Some reply => (inr reply, w')
      | None => (inl (admin, sid), w')
      end
  end.

End OptionalAuth.

(** ** The routes of the admin router ([admin.routes.ts]) *)

Record Route := mkRoute {
  route_method : string;
  route_path : string;
  route_roles : list string
}.

Definition admin_only := ["admin"].
Definition approver_or_admin := ["approver"; "admin"].
Definition any_role := ["viewer"; "approver"; "admin"].

(** The routes of the longer of the two versions of the router; the
    shorter one has a part of them. *)
Definition admin_routes : list Route :=
  [ mkRoute "POST" "/users" admin_only;
    mkRoute "GET" "/users" any_role;
    mkRoute "PUT" "/users/:id" admin_only;
    mkRoute "GET" "/registrations" any_role;
    mkRoute "GET" "/profiles" any_role;
    mkRoute "PUT" "/profiles/verify" approver_or_admin;
    mkRoute "POST" "/accounts" approver_or_admin;
    mkRoute "PUT" "/accounts/:account_code" approver_or_admin;
    mkRoute "PUT" "/accounts/:id/enable" approver_or_admin;
    mkRoute "PUT" "/accounts/:id/disable" approver_or_admin;
    mkRoute "GET" "/accounts/:account_id/logins" any_role;
    mkRoute "GET" "/payments/summary" any_role;
    mkRoute "GET" "/partners/registrations" any_role;
    mkRoute "POST" "/partners/registrations" approver_or_admin;
    mkRoute "POST" "/partners/:id/approve" approver_or_admin;
    mkRoute "PUT" "/partners/:id" approver_or_admin;
    mkRoute "GET" "/countries" any_role;
    mkRoute "GET" "/states" any_role;
    mkRoute "GET" "/lookup" any_role;
    mkRoute "GET" "/clients" any_role;
    mkRoute "GET" "/clients/:id/payments" any_role ].

(** ** The other services ([auth.service.ts]) *)

Module ResultRow.

(** First row of the first result set of the logout and password-reset
    procedures, as far as the service and the controller read it. *)
Record t := mk {
  status : string;
  error_message : option string;
  reset_token : option string
}.

End ResultRow.

(** A number as a procedure parameter. *)
Definition number_param (n : Z) : option string :=
  Some (NilZero.string_of_int (Z.to_int n)).

Section AuthServices.

(** The stored procedures, each run at an instant on its parameters. *)
Variable admin_auth_logout :
  Z -> string -> Z -> Db -> list (list ResultRow.t) * Db.
Variable admin_auth_refresh_token :
  Z -> string -> Z -> Db -> list (list LoginRow.t) * Db.
Variable admin_auth_reset_password :
  Z -> string -> Db -> list (list ResultRow.t) * Db.
Variable admin_auth_confirm_reset_password :
  Z -> string -> string -> Db -> list (list ResultRow.t) * Db.

(** [bcrypt.hash(password, BCRYPT_ROUNDS)], the salt of the call fixed. *)
Variable bcrypt_hash : string -> string.

Variable env : Env.
Variable now : Z.

Definition call {R} (name : string) (params : list (option string))
    (procedure : Db -> list (list R) * Db) : M (list (list R)) :=
  fun w =>
    let (results, d) := procedure (db w) in
    (inr results, emit (EvCall name params) (mkWorld d (events w))).

(** What every service does with the result sets of its procedure:
<<
    if (!results || results.length === 0) throw new Error(failed);
    const row = results[0][0];
    if (row.status === 'fail') throw new Error(row.error_message);
>> *)
Definition first_row {R} (failed : string) (status : R -> string)
    (error_message : R -> option string) (results : list (list R)) : M R :=
  match results with
  | [] => throw failed
  | [] :: _ => throw "Cannot read properties of undefined (reading 'status')"
  | (r :: _) :: _ =>
      if status r =? "fail" then throw (error_text (error_message r))
      else ret r
  end.

(** [logout(sessionId, adminId)] *)
Definition logout (sessionId : string) (adminId : Z) : M ResultRow.t :=
  results <- call "admin_auth_logout" [Some sessionId; number_param adminId]
               (admin_auth_logout now sessionId adminId) ;;
  first_row "Logout failed" ResultRow.status ResultRow.error_message results.

(** [refreshToken(sessionId, adminId)] *)
Definition refreshToken (sessionId : string) (adminId : Z) : M LoginResult :=
  results <- call "admin_auth_refresh_token" [Some sessionId; number_param adminId]
               (admin_auth_refresh_token now sessionId adminId) ;;
  refreshResult <- first_row "Token refresh failed" LoginRow.status
                     LoginRow.error_message results ;;
  (* Generate new tokens *)
  let payload :=
    JWTPayload.mk (LoginRow.admin_id refreshResult)
                  (LoginRow.username refreshResult)
                  (LoginRow.email refreshResult)
                  (LoginRow.role refreshResult)
                  (LoginRow.session_id refreshResult) in
  accessToken <- lift (generateAccessToken env now payload) ;;
  newRefreshToken <- lift (generateRefreshToken env now payload) ;;
  ret (mkLoginResult refreshResult accessToken newRefreshToken).

(** [requestPasswordReset(email)] *)
Definition requestPasswordReset (email : string) : M ResultRow.t :=
  results <- call "admin_auth_reset_password" [Some email]
               (admin_auth_reset_password now email) ;;
  first_row "Password reset request failed" ResultRow.status
            ResultRow.error_message results.

(** [confirmPasswordReset(token, newPassword)] *)
Definition confirmPasswordReset (token newPassword : string) : M ResultRow.t :=
  (* Hash new password *)
  let passwordHash := bcrypt_hash newPassword in
  results <- call "admin_auth_confirm_reset_password" [Some token; Some passwordHash]
               (admin_auth_confirm_reset_password now token passwordHash) ;;
  first_row "Password reset failed" ResultRow.status
            ResultRow.error_message results.

End AuthServices.

(** ** The other controllers ([auth.controller.ts]) *)

Module Req.

(** A request as these controllers read it: the string fields of the
    JSON body, and what [authenticate] has attached. *)
Record t := mk {
  body : string -> option string;
  admin : option Principal.t;
  session_id : option string
}.

End Req.

(** The code units one byte of a UTF-8 text stands for in the UTF-16
    string JavaScript holds: a byte that continues a character counts
    nothing, the first byte of a character counts one, and two when it
    opens a four-byte character (a surrogate pair). *)
Definition byte_code_units (c : ascii) : nat :=
  let n := nat_of_ascii c in
  if (n <? 128)%nat then 1%nat
  else if (n <? 192)%nat then 0%nat
  else if (n <? 240)%nat then 1%nat
  else 2%nat.

(** [s.length] of a string held as the bytes of its UTF-8 text. *)
Fixpoint js_length (s : string) : nat :=
  match s with
  | EmptyString => 0%nat
  | String c rest => (byte_code_units c + js_length rest)%nat
  end.

(** The payload of the forgot-password reply. *)
Record ForgotData := mkForgotData {
  forgot_message : string;
  forgot_reset_token : option string
}.

Module AuthController.

Section Controllers.

Variable admin_auth_logout :
  Z -> string -> Z -> Db -> list (list ResultRow.t) * Db.
Variable admin_auth_refresh_token :
  Z -> string -> Z -> Db -> list (list LoginRow.t) * Db.
Variable admin_auth_reset_password :
  Z -> string -> Db -> list (list ResultRow.t) * Db.
Variable admin_auth_confirm_reset_password :
  Z -> string -> string -> Db -> list (list ResultRow.t) * Db.
Variable bcrypt_hash : string -> string.
Variable wire : string -> Jwt.Token.
Variable env : Env.

(** [process.env.NODE_ENV] *)
Variable node_env : option string.

Variable now : Z.

(** Logout controller *)
Definition logout (req : Req.t) (w : World) : Api.Reply string * World :=
  match Req.admin req with
  | Some admin =>
      if negb (Js.truthy (Req.session_id req)) then
        (Api.sendError now 401 "48000" (Some "Not authenticated") None, w)
      else
        match logout admin_auth_logout now
                     (Js.or_else (Req.session_id req) "")
                     (Principal.admin_id admin) w with
        | (inr _, w') => (Api.sendSuccess now "Logged out successfully" None, w')
        | (inl msg, w') => (Api.sendInternalError now "Logout failed" (Some msg), w')
        end
  | None => (Api.sendError now 401 "48000" (Some "Not authenticated") None, w)
  end.

(** Refresh token controller *)
Definition refreshToken (req : Req.t) (w : World) : Response * World :=
  let refresh_token := Req.body req "refresh_token" in
  if negb (Js.truthy refresh_token) then
    (sendError now 400 "50000" (Some "Refresh token is required") None, w)
  else
    let attempt : (string + LoginResult) * World :=
      (* Verify refresh token *)
      match verifyRefreshToken env now (wire (Js.or_else refresh_token "")) with
      | inl msg => (inl msg, w)
      | inr payload =>
          (* Refresh the session *)
          refreshToken admin_auth_refresh_token env now
                       (JWTPayload.session_id payload)
                       (JWTPayload.admin_id payload) w
      end in
    match attempt with
    | (inr result, w') => (sendSuccess now result, w')
    | (inl msg, w') =>
        if Js.includes msg "Invalid or expired" then
          (sendError now 401 "48011" (Some "Invalid or expired refresh token") None, w')
        else (sendInternalError now "Token refresh failed" (Some msg), w')
    end.

(** Forgot password controller *)
Definition forgotPassword (req : Req.t) (w : World)
  : Api.Reply ForgotData * World :=
  let email := Req.body req "email" in
  if negb (Js.truthy email) then
    (Api.sendError now 400 "50000" (Some "Email is required") None, w)
  else
    match requestPasswordReset admin_auth_reset_password now
                               (Js.or_else email "") w with
    | (inr result, w') =>
        (* Don't expose whether email exists for security *)
        (Api.sendSuccess now
           (mkForgotData "If the email exists, a reset link will be sent"
              (* Only include token in development *)
              (if Js.or_else node_env "" =? "development"
               then ResultRow.reset_token result else None))
           None,
         w')
    | (inl msg, w') =>
        (Api.sendInternalError now "Password reset request failed" (Some msg), w')
    end.

(** Reset password controller. *)
Definition resetPassword (req : Req.t) (w : World) : Api.Reply string * World :=
  let token := Req.body req "token" in
  let new_password := Req.body req "new_password" in
  if negb (Js.truthy token) || negb (Js.truthy new_password) then
    (Api.sendError now 400 "50000" (Some "Token and new password are required") None, w)
  (* Validate password strength *)
  else if (js_length (Js.or_else new_password "") <? 8)%nat then
    (Api.sendError now 400 "50000"
                   (Some "Password must be at least 8 characters long") None, w)
  else
    match confirmPasswordReset admin_auth_confirm_reset_password bcrypt_hash now
                               (Js.or_else token "") (Js.or_else new_password "") w with
    | (inr _, w') => (Api.sendSuccess now "Password reset successfully" None, w')
    | (inl msg, w') =>
        (if Js.includes msg "Invalid reset token" then
           Api.sendError now 400 "48013" (Some msg) None
         else if Js.includes msg "already been used" then
           Api.sendError now 400 "48014" (Some msg) None
         else if Js.includes msg "expired" then
           Api.sendError now 400 "48015" (Some msg) None
         else
           Api.sendInternalError now "Password reset failed" (Some msg),
         w')
    end.

End Controllers.

End AuthController.

(** ** Repeated logins *)

Section Repeated.

Variable bcrypt_compare : string -> string -> bool.
Variable date_to_string : Z -> string.
Variable admin_auth_login :
  Z -> string -> string -> option string -> option string ->
  Db -> list (list LoginRow.t) * Db.
Variable env : Env.

(** One login after the other for the same identifier, each at its own
    instant with its own password; the outcomes come back in order. *)
Fixpoint login_each (ident : string) (attempts : list (Z * string)) (w : World)
  : list (string + LoginResult) * World :=
  match attempts with
  | [] => ([], w)
  | (t, p) :: more =>
      let (r, w1) :=
        login bcrypt_compare date_to_string admin_auth_login env t
              (mkLoginRequest ident p) None None w in
      let (rs, w2) := login_each ident more w1 in
      (r :: rs, w2)
  end.

End Repeated.

(** The password comparisons among the events of a run. *)
Fixpoint comparisons (evs : list Event) : nat :=
  match evs with
  | [] => 0
  | EvBcryptCompare _ _ :: more => S (comparisons more)
  | _ :: more => comparisons more
  end.

(** Whether the login procedure was called among the events of a run. *)
Fixpoint login_procedure_called (evs : list Event) : bool :=
  match evs with
  | [] => false
  | EvCall name _ :: more => (name =? "admin_auth_login") || login_procedure_called more
  | _ :: more => login_procedure_called more
  end.

Module Fixture.

(** Stand-ins for the four other procedures: they answer [success]. *)
Definition ok_row (token : option string) : ResultRow.t :=
  ResultRow.mk "success" None token.

Definition logout_proc (now : Z) (sid : string) (id : Z) (d : Db)
  : list (list ResultRow.t) * Db := ([[ok_row None]], d).

Definition reset_proc (now : Z) (email : string) (d : Db)
  : list (list ResultRow.t) * Db := ([[ok_row (Some "reset-7c1e")]], d).

Definition confirm_proc (now : Z) (token hash : string) (d : Db)
  : list (list ResultRow.t) * Db := ([[ok_row None]], d).

Definition refresh_proc (now : Z) (sid : string) (id : Z) (d : Db)
  : list (list LoginRow.t) * Db :=
  ([[LoginRow.mk "success" None None None id "test_admin_valid"
                 "test_admin@example.com" "admin" sid (now + 28800) false]], d).

Definition bcrypt_hash (p : string) : string := "$2b$10$" ++ p.

Definition body (fields : list (string * string)) (key : string) : option string :=
  match filter (fun kv => fst kv =? key) fields with
  | kv :: _ => Some (snd kv)
  | [] => None
  end.

(** Compact serializations: the two access tokens of the session, and
    one refresh token for it. *)
Definition refresh_token : Jwt.Token :=
  let b := Jwt.mkBody (Sample.session_claims "admin") 1000 605800 in
  Jwt.Jws b "your_refresh_secret" b.

Definition wire (s : string) : Jwt.Token :=
  if s =? "refresh.admin.sig" then refresh_token else Sample.wire s.

(** A refresh procedure that finds the session gone. *)
Definition refresh_gone_proc (now : Z) (sid : string) (id : Z) (d : Db)
  : list (list LoginRow.t) * Db :=
  ([[fail_row "48010" "Invalid or expired session"]], d).

Definition req (fields : list (string * string)) : Req.t :=
  Req.mk (body fields) None None.

Definition six_guesses : list (Z * string) :=
  [(1000, "Spring2024"); (1010, "Summer2024"); (1020, "Autumn2024");
   (1030, "Winter2024"); (1040, "Admin@1234"); (1050, "Admin@12345")].

End Fixture.

(** * Properties *)

(** ** The store *)

Lemma filter_map_stable {A} (p : A -> bool) (f : A -> A) (l : list A) :
  (forall x, p (f x) = p x) ->
  filter p (map f l) = map f (filter p l).
Proof.
  intros Hp. induction l as [|x l IH]; cbn; [reflexivity|].
  rewrite Hp. destruct (p x); cbn; now rewrite IH.
Qed.

Lemma select_user_update_account id f d ident :
  (forall u, AdminUser.username (f u) = AdminUser.username u) ->
  (forall u, AdminUser.email (f u) = AdminUser.email u) ->
  select_user (update_account id f d) ident =
  map (fun u => if (AdminUser.admin_id u =? id)%Z then f u else u)
      (select_user d ident).
Proof.
  intros Hu He. unfold select_user, update_account, with_admin_users; cbn.
  apply filter_map_stable. intros u.
  destruct (AdminUser.admin_id u =? id)%Z; [|reflexivity].
  now rewrite Hu, He.
Qed.

Lemma update_failed_login_as_update_account now id d :
  update_failed_login now id d = update_account id (update_failed_login_row now) d.
Proof. reflexivity. Qed.

Lemma select_user_update_failed_login now id d ident :
  select_user (update_failed_login now id d) ident =
  map (fun u => if (AdminUser.admin_id u =? id)%Z
                then update_failed_login_row now u else u)
      (select_user d ident).
Proof.
  rewrite update_failed_login_as_update_account.
  now apply select_user_update_account.
Qed.

(** What the failed-login statement leaves in the row it updates. *)
Lemma update_failed_login_row_counter now u :
  AdminUser.failed_login_attempts (update_failed_login_row now u) =
  AdminUser.failed_login_attempts u + 1.
Proof. reflexivity. Qed.

Lemma update_failed_login_row_lock now u :
  AdminUser.locked_until (update_failed_login_row now u) =
  if (AdminUser.failed_login_attempts u + 2 >=? 5)%Z
  then Some (now + 1800) else None.
Proof.
  unfold update_failed_login_row, date_add_minutes; cbn.
  replace (AdminUser.failed_login_attempts u + 1 + 1)
    with (AdminUser.failed_login_attempts u + 2) by lia.
  reflexivity.
Qed.

(** Under simultaneous assignment the lock would be set exactly when the
    new counter reaches five. *)
Lemma update_failed_login_row_simultaneous_lock now u :
  AdminUser.locked_until (update_failed_login_row_simultaneous now u) =
  if (AdminUser.failed_login_attempts
        (update_failed_login_row_simultaneous now u) >=? 5)%Z
  then Some (now + 1800) else None.
Proof. reflexivity. Qed.

Lemma update_failed_login_keeps_sessions now id d :
  admin_sessions (update_failed_login now id d) = admin_sessions d.
Proof. reflexivity. Qed.

Lemma update_failed_login_keeps_log now id d :
  activity_log (update_failed_login now id d) = activity_log d.
Proof. reflexivity. Qed.

(** ** The branches of [login] *)

Section LoginFacts.

Variable bcrypt_compare : string -> string -> bool.
Variable date_to_string : Z -> string.
Variable admin_auth_login :
  Z -> string -> string -> option string -> option string ->
  Db -> list (list LoginRow.t) * Db.
Variable env : Env.
Variable now : Z.

Local Abbreviation login_ :=
  (login bcrypt_compare date_to_string admin_auth_login env now).

Lemma login_not_found loginData ip ua w :
  select_user (db w) (req_username loginData) = [] ->
  login_ loginData ip ua w =
  (inl "Invalid username or password",
   emit (EvSelectUser (req_username loginData)) w).
Proof.
  intros H. unfold login, bind, executeQuery_select_user; cbn.
  now rewrite H.
Qed.

Lemma login_locked loginData ip ua w user rest t :
  select_user (db w) (req_username loginData) = user :: rest ->
  AdminUser.locked_until user = Some t ->
  now < t ->
  login_ loginData ip ua w =
  (inl ("Account is locked until " ++ date_to_string t),
   emit (EvSelectUser (req_username loginData)) w).
Proof.
  intros H Hl Hlt. unfold login, bind, executeQuery_select_user; cbn.
  rewrite H; cbn. unfold locked_at. rewrite Hl.
  apply Z.ltb_lt in Hlt. now rewrite Hlt.
Qed.

Lemma login_inactive loginData ip ua w user rest :
  select_user (db w) (req_username loginData) = user :: rest ->
  locked_at now user = false ->
  AdminUser.is_active user = false ->
  login_ loginData ip ua w =
  (inl "Account is inactive",
   emit (EvSelectUser (req_username loginData)) w).
Proof.
  intros H Hl Ha. unfold login, bind, executeQuery_select_user; cbn.
  rewrite H; cbn. now rewrite Hl, Ha.
Qed.

Lemma login_wrong_password loginData ip ua w user rest :
  select_user (db w) (req_username loginData) = user :: rest ->
  locked_at now user = false ->
  AdminUser.is_active user = true ->
  bcrypt_compare (req_password loginData) (AdminUser.password_hash user) = false ->
  login_ loginData ip ua w =
  (inl "Invalid username or password",
   mkWorld (update_failed_login now (AdminUser.admin_id user) (db w))
           (events w ++ [EvSelectUser (req_username loginData);
                         EvBcryptCompare (req_password loginData)
                                         (AdminUser.password_hash user);
                         EvUpdateFailedLogin (AdminUser.admin_id user)])%list).
Proof.
  intros H Hl Ha Hb.
  unfold login, bind, executeQuery_select_user; cbn.
  rewrite H; cbn. rewrite Hl, Ha; cbn.
  unfold compare_password, bind; cbn. rewrite Hb; cbn.
  unfold emit; cbn. now rewrite <- !app_assoc.
Qed.

End LoginFacts.

(** ** How the controller classifies the messages of the service *)

Lemma login_error_invalid now :
  Controller.login_error now "Invalid username or password" =
  sendError now 401 "48002" (Some "Invalid username or password") None.
Proof. reflexivity. Qed.

Lemma login_error_inactive now :
  Controller.login_error now "Account is inactive" =
  sendError now 403 "48004" (Some "Account is inactive") None.
Proof. reflexivity. Qed.

Lemma lock_message_not_invalid s :
  Js.includes ("Account is locked until " ++ s) "Invalid username or password" =
  Js.includes s "Invalid username or password".
Proof. reflexivity. Qed.

Lemma lock_message_mentions_locked s :
  Js.includes ("Account is locked until " ++ s) "locked" = true.
Proof. reflexivity. Qed.

Lemma login_error_locked now s :
  Js.includes s "Invalid username or password" = false ->
  Controller.login_error now ("Account is locked until " ++ s) =
  sendError now 403 "48003" (Some ("Account is locked until " ++ s)) None.
Proof.
  intros H. unfold Controller.login_error.
  now rewrite lock_message_not_invalid, H, lock_message_mentions_locked.
Qed.

(** ** Login: the refusals *)

Section LoginClaims.

Variable bcrypt_compare : string -> string -> bool.
Variable bcrypt_rejection : JsValue.t -> string.
Variable date_to_string : Z -> string.
Variable admin_auth_login :
  Z -> string -> string -> option string -> option string ->
  Db -> list (list LoginRow.t) * Db.
Variable login_other_username :
  JsValue.t -> JsValue.t -> option string -> option string -> M LoginResult.
Variable env : Env.
Variable now : Z.

Local Abbreviation login_ :=
  (login bcrypt_compare date_to_string admin_auth_login env now).
Local Abbreviation controller_ :=
  (Controller.login bcrypt_compare bcrypt_rejection date_to_string
                    admin_auth_login login_other_username env now).

(** C1. An account whose [locked_until] is set and strictly in the
    future is refused with the lock error whatever the password is: the
    only thing the request does is the first [SELECT] (no password
    comparison, no [UPDATE], no procedure call), so the store is left as
    it was, in particular the failed-attempt counter and [locked_until]
    of the account; the controller answers 403 with code 48003. *)
Theorem locked_account_is_refused_untouched
    (loginData : LoginRequest) (ip ua : option string) (w : World)
    (user : AdminUser.t) (rest : list AdminUser.t) (t : Z) :
  select_user (db w) (req_username loginData) = user :: rest ->
  AdminUser.locked_until user = Some t ->
  now < t ->
  exists w',
    login_ loginData ip ua w =
      (inl ("Account is locked until " ++ date_to_string t), w') /\
    db w' = db w /\
    failed_attempts_of (db w') (req_username loginData) =
      Some (AdminUser.failed_login_attempts user) /\
    locked_until_of (db w') (req_username loginData) = Some (Some t) /\
    events w' = (events w ++ [EvSelectUser (req_username loginData)])%list /\
    (Js.includes (date_to_string t) "Invalid username or password" = false ->
     Controller.login_error now ("Account is locked until " ++ date_to_string t) =
     sendError now 403 "48003"
               (Some ("Account is locked until " ++ date_to_string t)) None).
Proof.
  intros Hsel Hlock Hlt.
  exists (emit (EvSelectUser (req_username loginData)) w).
  split; [now apply login_locked with (user := user) (rest := rest)|].
  unfold failed_attempts_of, locked_until_of; cbn. rewrite Hsel, Hlock.
  repeat split. apply login_error_locked.
Qed.

(** C8. An inactive account that is not locked is refused as inactive
    whatever the password is: the request stops after the first [SELECT],
    before any password comparison, so no session is created and the
    failed-attempt counter is unchanged; the controller answers 403 with
    code 48004. *)
Theorem inactive_account_is_refused_untouched
    (loginData : LoginRequest) (ip ua : option string) (w : World)
    (user : AdminUser.t) (rest : list AdminUser.t) :
  select_user (db w) (req_username loginData) = user :: rest ->
  locked_at now user = false ->
  AdminUser.is_active user = false ->
  exists w',
    login_ loginData ip ua w = (inl "Account is inactive", w') /\
    db w' = db w /\
    admin_sessions (db w') = admin_sessions (db w) /\
    failed_attempts_of (db w') (req_username loginData) =
      Some (AdminUser.failed_login_attempts user) /\
    events w' = (events w ++ [EvSelectUser (req_username loginData)])%list /\
    Controller.login_error now "Account is inactive" =
      sendError now 403 "48004" (Some "Account is inactive") None.
Proof.
  intros Hsel Hlock Hact.
  exists (emit (EvSelectUser (req_username loginData)) w).
  split; [now apply login_inactive with (user := user) (rest := rest)|].
  unfold failed_attempts_of; cbn. rewrite Hsel.
  repeat split.
Qed.

(** C10. A login request whose username or password field is missing or
    is the empty string is answered 400 with code 50000 and the world is
    left exactly as it was: no statement reaches the store (no account
    lookup), so no counter changes, no session is created and no
    activity-log entry is written. *)
Theorem missing_credentials_are_rejected_before_the_store
    (req : Request) (w : World) :
  body_username (body req) = JsValue.Undefined \/
  body_username (body req) = JsValue.Null \/
  body_username (body req) = JsValue.Str "" \/
  body_password (body req) = JsValue.Undefined \/
  body_password (body req) = JsValue.Null \/
  body_password (body req) = JsValue.Str "" ->
  exists reply,
    controller_ req w = (reply, w) /\
    statusCode reply = 400 /\
    code reply = Some "50000" /\
    success reply = false /\
    data reply = None.
Proof.
  intros H.
  exists (sendError now 400 "50000" (Some "Username and password are required") None).
  split; [|repeat split].
  unfold Controller.login.
  destruct H as [H|[H|[H|[H|[H|H]]]]]; rewrite H; cbn;
    try reflexivity; now rewrite orb_true_r.
Qed.

(** A password that is not a string, sent for an existing, unlocked,
    active account: the comparison rejects it, the controller answers
    500 with code 52000, and the account lookup is the only statement
    sent to the store. *)
Lemma other_password_is_an_internal_error
    (req : Request) (w : World) (u : string) (v : JsValue.t)
    (user : AdminUser.t) (rest : list AdminUser.t) :
  body req = mkLoginBody (JsValue.Str u) v -> u <> "" ->
  JsValue.truthy v = true -> (forall p, v <> JsValue.Str p) ->
  select_user (db w) u = user :: rest ->
  locked_at now user = false ->
  AdminUser.is_active user = true ->
  Js.includes (bcrypt_rejection v) "Invalid username or password" = false ->
  Js.includes (bcrypt_rejection v) "locked" = false ->
  Js.includes (bcrypt_rejection v) "inactive" = false ->
  controller_ req w =
  (sendInternalError now "Login failed" (Some (bcrypt_rejection v)),
   emit (EvSelectUser u) w).
Proof.
  intros B Hu Hv Hns Hsel Hlock Hact H1 H2 H3.
  apply String.eqb_neq in Hu.
  unfold Controller.login. rewrite B.
  cbn [body_username body_password JsValue.truthy].
  rewrite Hu, Hv. cbn [negb orb].
  assert (E : login_values bcrypt_compare bcrypt_rejection date_to_string
                admin_auth_login login_other_username env now
                (JsValue.Str u) v (js_or (ip req) (remoteAddress req))
                (user_agent req) w =
              (inl (bcrypt_rejection v), emit (EvSelectUser u) w)).
  { destruct v as [| |p|n|b|j]; try discriminate Hv;
      try (exfalso; now apply (Hns p));
      unfold login_values, bind, executeQuery_select_user, throw;
      rewrite Hsel, Hlock, Hact; reflexivity. }
  rewrite E. unfold Controller.login_error. now rewrite H1, H2, H3.
Qed.


End LoginClaims.

(** ** Login: the wrong password *)

Lemma select_head_after_update_failed_login now d ident user rest :
  select_user d ident = user :: rest ->
  exists rest',
    select_user (update_failed_login now (AdminUser.admin_id user) d) ident =
    update_failed_login_row now user :: rest'.
Proof.
  intros H. rewrite select_user_update_failed_login, H; cbn.
  rewrite Z.eqb_refl. eauto.
Qed.

Section WrongPassword.

Variable bcrypt_compare : string -> string -> bool.
Variable date_to_string : Z -> string.
Variable admin_auth_login :
  Z -> string -> string -> option string -> option string ->
  Db -> list (list LoginRow.t) * Db.
Variable env : Env.
Variable now : Z.

Local Abbreviation login_ :=
  (login bcrypt_compare date_to_string admin_auth_login env now).

(** What a wrong password does, for every counter value: the attempt
    fails as invalid credentials, the counter goes up by one, and the
    lock is set to [now] plus thirty minutes exactly when the new
    counter is at least four. *)
Lemma wrong_password_effect
    (loginData : LoginRequest) (ip ua : option string) (w : World)
    (user : AdminUser.t) (rest : list AdminUser.t) :
  select_user (db w) (req_username loginData) = user :: rest ->
  locked_at now user = false ->
  AdminUser.is_active user = true ->
  bcrypt_compare (req_password loginData) (AdminUser.password_hash user) = false ->
  exists w',
    login_ loginData ip ua w = (inl "Invalid username or password", w') /\
    failed_attempts_of (db w') (req_username loginData) =
      Some (AdminUser.failed_login_attempts user + 1) /\
    locked_until_of (db w') (req_username loginData) =
      Some (if (AdminUser.failed_login_attempts user + 1 >=? 4)%Z
            then Some (now + 30 * 60) else None) /\
    admin_sessions (db w') = admin_sessions (db w) /\
    activity_log (db w') = activity_log (db w).
Proof.
  intros Hsel Hlock Hact Hpw.
  eexists. split.
  { now apply login_wrong_password with (user := user) (rest := rest). }
  cbn [db].
  destruct (select_head_after_update_failed_login now _ _ _ _ Hsel) as [rest' E].
  unfold failed_attempts_of, locked_until_of. rewrite E.
  rewrite update_failed_login_row_counter, update_failed_login_row_lock.
  repeat split.
  do 2 f_equal.
  destruct (AdminUser.failed_login_attempts user + 2 >=? 5)%Z eqn:A,
           (AdminUser.failed_login_attempts user + 1 >=? 4)%Z eqn:B;
    try reflexivity; lia.
Qed.

(** C2 (what the code does where the claim fails). With three failures
    on record, a fourth wrong password on an unlocked, active account
    brings the counter to four, below the threshold of five, and yet sets
    [locked_until] to [now] plus thirty minutes instead of leaving it
    null. *)
Theorem fourth_wrong_password_already_locks
    (loginData : LoginRequest) (ip ua : option string) (w : World)
    (user : AdminUser.t) (rest : list AdminUser.t) :
  select_user (db w) (req_username loginData) = user :: rest ->
  locked_at now user = false ->
  AdminUser.is_active user = true ->
  bcrypt_compare (req_password loginData) (AdminUser.password_hash user) = false ->
  AdminUser.failed_login_attempts user = 3 ->
  exists w',
    login_ loginData ip ua w = (inl "Invalid username or password", w') /\
    failed_attempts_of (db w') (req_username loginData) = Some 4 /\
    locked_until_of (db w') (req_username loginData) = Some (Some (now + 30 * 60)).
Proof.
  intros Hsel Hlock Hact Hpw Hthree.
  destruct (wrong_password_effect loginData ip ua w user rest Hsel Hlock Hact Hpw)
    as (w' & E & Hc & Hl & _).
  exists w'. rewrite Hthree in Hc, Hl. auto.
Qed.

(** C3 (what the code does where the claim fails). A login that is
    refused because the account is locked, or inactive, or the password
    is wrong, leaves the activity log as it was: the service throws
    without calling the stored procedure, the only writer of the log, so
    no entry is written for any of these attempts, whatever the
    procedure would have done. *)
Theorem refused_login_writes_no_activity_log
    (loginData : LoginRequest) (ip ua : option string) (w : World)
    (user : AdminUser.t) (rest : list AdminUser.t) :
  select_user (db w) (req_username loginData) = user :: rest ->
  locked_at now user = true \/
  AdminUser.is_active user = false \/
  bcrypt_compare (req_password loginData) (AdminUser.password_hash user) = false ->
  exists msg w' done,
    login_ loginData ip ua w = (inl msg, w') /\
    activity_log (db w') = activity_log (db w) /\
    events w' = (events w ++ done)%list /\
    forall procedure params, ~ In (EvCall procedure params) done.
Proof.
  intros Hsel Hwhy.
  destruct (locked_at now user) eqn:Hlock.
  - unfold locked_at in Hlock.
    destruct (AdminUser.locked_until user) as [t|] eqn:Ht; [|discriminate].
    apply Z.ltb_lt in Hlock.
    do 3 eexists. split.
    { now apply login_locked with (user := user) (rest := rest) (t := t). }
    repeat split. cbn. intros ? ? [?|[]]; discriminate.
  - destruct (AdminUser.is_active user) eqn:Hact.
    + destruct (bcrypt_compare (req_password loginData) (AdminUser.password_hash user))
        eqn:Hpw.
      * destruct Hwhy as [?|[?|?]]; discriminate.
      * do 3 eexists. split.
        { now apply login_wrong_password with (user := user) (rest := rest). }
        repeat split. cbn. intros ? ? [?|[?|[?|[]]]]; discriminate.
    + do 3 eexists. split.
      { now apply login_inactive with (user := user) (rest := rest). }
      repeat split. cbn. intros ? ? [?|[]]; discriminate.
Qed.

End WrongPassword.

(** ** Login: the success *)

Lemma select_user_after_success d id s e ident :
  select_user (appendActivityLog e (createSession s (recordSuccess id d))) ident =
  map (fun u => if (AdminUser.admin_id u =? id)%Z
                then AdminUser.set_locked_until None
                       (AdminUser.set_failed_login_attempts 0 u)
                else u)
      (select_user d ident).
Proof.
  unfold recordSuccess.
  now rewrite <- select_user_update_account.
Qed.

Section SuccessfulLogin.

Variable uuid : nat -> string.
Variable session_ttl : Z.
Variable bcrypt_compare : string -> string -> bool.
Variable date_to_string : Z -> string.
Variable env : Env.
Variable now : Z.

Local Abbreviation login_ :=
  (login bcrypt_compare date_to_string (admin_auth_login uuid session_ttl) env now).

(** A correct password on an unlocked, active account logs in, provided
    the two configured token lifetimes are readable. *)
Lemma valid_login_succeeds
    (loginData : LoginRequest) (ip ua : option string) (w : World)
    (user : AdminUser.t) (rest : list AdminUser.t) (la lr : Z) :
  select_user (db w) (req_username loginData) = user :: rest ->
  locked_at now user = false ->
  AdminUser.is_active user = true ->
  bcrypt_compare (req_password loginData) (AdminUser.password_hash user) = true ->
  Jwt.timespan (JWT_EXPIRES_IN env) = Some la ->
  Jwt.timespan (JWT_REFRESH_EXPIRES_IN env) = Some lr ->
  exists result w', login_ loginData ip ua w = (inr result, w').
Proof.
  intros Hsel Hlock Hact Hpw Ha Hr.
  unfold login, bind, executeQuery_select_user; cbn.
  rewrite Hsel; cbn. rewrite Hlock, Hact; cbn.
  unfold compare_password, bind; cbn. rewrite Hpw; cbn.
  unfold executeProcedure_login, admin_auth_login; cbn.
  rewrite Hsel, Hlock, Hact, String.eqb_refl; cbn.
  unfold lift, generateAccessToken, generateRefreshToken, Jwt.sign.
  rewrite Ha, Hr. unfold ret. eauto.
Qed.

(** C5. Whatever the counter and the lock of the account were before,
    once a login succeeds the account it selected has
    [failed_login_attempts] 0 and [locked_until] null.  The stored
    procedure is the one modelled from the spec. *)
Theorem successful_login_clears_lockout
    (loginData : LoginRequest) (ip ua : option string) (w w' : World)
    (result : LoginResult) :
  login_ loginData ip ua w = (inr result, w') ->
  failed_attempts_of (db w') (req_username loginData) = Some 0 /\
  locked_until_of (db w') (req_username loginData) = Some None.
Proof.
  unfold login, bind, executeQuery_select_user; cbn.
  destruct (select_user (db w) (req_username loginData)) as [|user rest] eqn:Hsel;
    cbn; [discriminate|].
  destruct (locked_at now user) eqn:Hlock; [discriminate|].
  destruct (AdminUser.is_active user) eqn:Hact; cbn; [|discriminate].
  unfold compare_password, bind; cbn.
  destruct (bcrypt_compare _ _); cbn; [|discriminate].
  unfold executeProcedure_login, admin_auth_login; cbn.
  rewrite Hsel, Hlock, Hact, String.eqb_refl; cbn.
  unfold lift.
  destruct (generateAccessToken _ _ _); [discriminate|].
  destruct (generateRefreshToken _ _ _); [discriminate|].
  intros H. inversion H; subst; clear H.
  unfold failed_attempts_of, locked_until_of, emit; cbn [db].
  rewrite select_user_after_success, Hsel; cbn.
  now rewrite Z.eqb_refl.
Qed.

End SuccessfulLogin.

(** ** Tokens *)

Lemma payload_eqb_refl a : JWTPayload.eqb a a = true.
Proof.
  unfold JWTPayload.eqb. now rewrite Z.eqb_refl, !String.eqb_refl.
Qed.

Lemma payload_eqb_eq a b : JWTPayload.eqb a b = true -> a = b.
Proof.
  destruct a, b; unfold JWTPayload.eqb; cbn.
  rewrite !andb_true_iff, Z.eqb_eq, !String.eqb_eq.
  intuition congruence.
Qed.

Lemma body_eqb_refl a : Jwt.body_eqb a a = true.
Proof.
  unfold Jwt.body_eqb. now rewrite payload_eqb_refl, !Z.eqb_refl.
Qed.

Lemma body_eqb_eq a b : Jwt.body_eqb a b = true -> a = b.
Proof.
  destruct a, b; unfold Jwt.body_eqb; cbn.
  rewrite !andb_true_iff, !Z.eqb_eq.
  intros [[H1 H2] H3]. apply payload_eqb_eq in H1. congruence.
Qed.

(** The library accepts a token exactly when its signature was made with
    the given secret over the very body it carries and it has not
    expired; then it returns the signed claims. *)
Lemma verify_accepts now token secret p :
  Jwt.verify now token secret = inr p <->
  exists b, token = Jwt.Jws b secret b /\ now < Jwt.exp b /\ p = Jwt.claims b.
Proof.
  split.
  - destruct token as [raw|b k signed]; cbn; [discriminate|].
    destruct (k =? secret) eqn:Hk; cbn; [|discriminate].
    destruct (Jwt.body_eqb signed b) eqn:Hb; [|discriminate].
    destruct (now >=? Jwt.exp b)%Z eqn:He; [discriminate|].
    intros H. inversion H; subst.
    apply String.eqb_eq in Hk. apply body_eqb_eq in Hb. subst.
    exists b. repeat split. lia.
  - intros (b & -> & Hlt & ->). cbn.
    rewrite String.eqb_refl, body_eqb_refl; cbn.
    destruct (now >=? Jwt.exp b)%Z eqn:He; [lia|reflexivity].
Qed.

Lemma verify_wrong_key now b k secret :
  k <> secret -> exists e, Jwt.verify now (Jwt.Jws b k b) secret = inl e.
Proof.
  intros H. cbn. apply String.eqb_neq in H. rewrite H. cbn. eauto.
Qed.

Lemma access_fails_one_way env now token :
  verifyAccessToken env now token = inl "Invalid or expired token" \/
  exists b, token = Jwt.Jws b (JWT_SECRET env) b /\ now < Jwt.exp b /\
            verifyAccessToken env now token = inr (Jwt.claims b).
Proof.
  unfold verifyAccessToken.
  destruct (Jwt.verify now token (JWT_SECRET env)) as [e|p] eqn:H; [now left|].
  right. apply verify_accepts in H. destruct H as (b & ? & ? & ->). eauto.
Qed.

Lemma refresh_fails_one_way env now token :
  verifyRefreshToken env now token = inl "Invalid or expired refresh token" \/
  exists b, token = Jwt.Jws b (JWT_REFRESH_SECRET env) b /\ now < Jwt.exp b /\
            verifyRefreshToken env now token = inr (Jwt.claims b).
Proof.
  unfold verifyRefreshToken.
  destruct (Jwt.verify now token (JWT_REFRESH_SECRET env)) as [e|p] eqn:H;
    [now left|].
  right. apply verify_accepts in H. destruct H as (b & ? & ? & ->). eauto.
Qed.

Lemma sign_shape now payload secret life token :
  Jwt.sign now payload secret life = inr token ->
  exists b, token = Jwt.Jws b secret b /\ Jwt.claims b = payload.
Proof.
  unfold Jwt.sign. destruct (Jwt.timespan life); [|discriminate].
  intros H. inversion H. eauto.
Qed.

(** The built-in configuration: two different secrets, eight hours for
    access tokens and seven days for refresh tokens. *)
Lemma default_configuration :
  JWT_SECRET env_unset <> JWT_REFRESH_SECRET env_unset /\
  Jwt.timespan (JWT_EXPIRES_IN env_unset) = Some (8 * 3600) /\
  Jwt.timespan (JWT_REFRESH_EXPIRES_IN env_unset) = Some (7 * 86400).
Proof. repeat split. discriminate. Qed.

(** [decodeToken] is not a verification: it returns the claims of any
    well-formed token, whoever signed it and whenever it expired. *)
Lemma decodeToken_checks_nothing b k signed :
  decodeToken (Jwt.Jws b k signed) = Some (Jwt.claims b).
Proof. reflexivity. Qed.

(** C7 (as stated, refuted). With one and the same secret configured for
    both kinds, a refresh token is accepted by the access-token
    verification. *)
Lemma refresh_token_passes_as_access_under_shared_secret :
  ~ (forall (env : Env) (now : Z) (payload : JWTPayload.t) (token : Jwt.Token),
       generateRefreshToken env now payload = inr token ->
       exists e, verifyAccessToken env now token = inl e).
Proof.
  intros H.
  pose (env := mkEnv (Some "s3cret") None (Some "s3cret") None).
  pose (payload := JWTPayload.mk 1 "admin" "admin@matrimony.com" "admin" "sid").
  destruct (H env 0 payload
              (Jwt.Jws (Jwt.mkBody payload 0 604800) "s3cret"
                       (Jwt.mkBody payload 0 604800)) eq_refl) as [e He].
  discriminate He.
Qed.

(** C7 (amended). Verification fails closed: whatever the token, each of
    the two verifications either fails with its one fixed error, giving
    the caller no claims, or the token is signed with that kind's secret
    over the body it carries and is unexpired, and the claims returned
    are the signed ones.  The two kinds have separately configured
    secrets and lifetimes, by default two different secrets, eight hours
    and seven days.  Whenever the two configured secrets differ, no
    refresh token is accepted as an access token and no access token as
    a refresh token, at any instant. *)
Theorem token_verification_fails_closed
    (env : Env) (now issued : Z) (token : Jwt.Token) (payload : JWTPayload.t) :
  (verifyAccessToken env now token = inl "Invalid or expired token" \/
   exists b, token = Jwt.Jws b (JWT_SECRET env) b /\ now < Jwt.exp b /\
             verifyAccessToken env now token = inr (Jwt.claims b)) /\
  (verifyRefreshToken env now token = inl "Invalid or expired refresh token" \/
   exists b, token = Jwt.Jws b (JWT_REFRESH_SECRET env) b /\ now < Jwt.exp b /\
             verifyRefreshToken env now token = inr (Jwt.claims b)) /\
  (JWT_SECRET env_unset <> JWT_REFRESH_SECRET env_unset /\
   Jwt.timespan (JWT_EXPIRES_IN env_unset) = Some (8 * 3600) /\
   Jwt.timespan (JWT_REFRESH_EXPIRES_IN env_unset) = Some (7 * 86400)) /\
  (JWT_SECRET env <> JWT_REFRESH_SECRET env ->
   (generateRefreshToken env issued payload = inr token ->
    verifyAccessToken env now token = inl "Invalid or expired token") /\
   (generateAccessToken env issued payload = inr token ->
    verifyRefreshToken env now token = inl "Invalid or expired refresh token")).
Proof.
  split; [apply access_fails_one_way|].
  split; [apply refresh_fails_one_way|].
  split; [apply default_configuration|].
  intros Hdiff.
  split; intros Hgen; apply sign_shape in Hgen; destruct Hgen as (b & -> & _).
  - unfold verifyAccessToken.
    destruct (verify_wrong_key now b (JWT_REFRESH_SECRET env) (JWT_SECRET env))
      as [e ->]; [congruence|reflexivity].
  - unfold verifyRefreshToken.
    destruct (verify_wrong_key now b (JWT_SECRET env) (JWT_REFRESH_SECRET env))
      as [e ->]; [congruence|reflexivity].
Qed.

(** ** The middleware *)

Lemma substring_whole s : substring 0 (String.length s) s = s.
Proof. induction s as [|c s IH]; cbn; [reflexivity|now rewrite IH]. Qed.

Lemma bearer_token t : Js.substring_from 7 ("Bearer " ++ t) = t.
Proof.
  unfold Js.substring_from. cbn. rewrite Nat.sub_0_r. apply substring_whole.
Qed.

Lemma bearer_header_accepted t :
  negb (Js.truthy (Some ("Bearer " ++ t)))
  || negb (Js.startsWith (Js.or_else (Some ("Bearer " ++ t)) "") "Bearer ") = false.
Proof. cbn. now destruct t. Qed.

Section MiddlewareClaims.

Variable wire : string -> Jwt.Token.
Variable admin_auth_verify_session :
  Z -> string -> Db -> list (list SessionRow.t) * Db.
Variable env : Env.
Variable now : Z.

Local Abbreviation authenticate_ :=
  (authenticate wire admin_auth_verify_session env now).

(** With a bearer token that verifies, the middleware goes on from the
    session id of the claims and from nothing else in them. *)
Lemma authenticate_verified (req : Request) (w : World) (t : string)
    (p : JWTPayload.t) :
  authorization req = Some ("Bearer " ++ t) ->
  verifyAccessToken env now (wire t) = inr p ->
  authenticate_ req w =
  let (results, w') :=
    executeProcedure_verify_session admin_auth_verify_session now
                                    (JWTPayload.session_id p) w in
  match results with
  | [] => (Sent (sendUnauthorized now (Some "Session not found")), w')
  | [] :: _ => (Sent (sendInternalError now "Authentication failed" None), w')
  | (r :: _) :: _ =>
      if SessionRow.status r =? "fail" then
        (Sent (sendUnauthorized now (SessionRow.error_message r)), w')
      else
        (Next (Principal.mk (SessionRow.admin_id r) (SessionRow.username r)
                            (SessionRow.email r) (SessionRow.role r)
                            (SessionRow.mfa_enabled r) true 0 now now)
              (SessionRow.session_id r),
         w')
  end.
Proof.
  intros Hh Hv. unfold authenticate. rewrite Hh, bearer_header_accepted.
  cbn [Js.or_else].
  replace (("Bearer " ++ t) =? "") with false by reflexivity.
  rewrite bearer_token, Hv. reflexivity.
Qed.

(** C6. Two requests whose access tokens both verify and carry the same
    session id are treated alike, whatever role, email, username or
    admin id the two tokens embed: the same reply or the same principal,
    and a principal attached is, field by field, the row the session
    procedure returned for that session id. *)
Theorem principal_comes_from_the_session_store
    (req1 req2 : Request) (w : World) (t1 t2 : string) (p1 p2 : JWTPayload.t) :
  authorization req1 = Some ("Bearer " ++ t1) ->
  authorization req2 = Some ("Bearer " ++ t2) ->
  verifyAccessToken env now (wire t1) = inr p1 ->
  verifyAccessToken env now (wire t2) = inr p2 ->
  JWTPayload.session_id p1 = JWTPayload.session_id p2 ->
  authenticate_ req1 w = authenticate_ req2 w /\
  forall admin sid w',
    authenticate_ req1 w = (Next admin sid, w') ->
    exists r others more,
      fst (admin_auth_verify_session now (JWTPayload.session_id p1) (db w)) =
        (r :: others) :: more /\
      Principal.admin_id admin = SessionRow.admin_id r /\
      Principal.username admin = SessionRow.username r /\
      Principal.email admin = SessionRow.email r /\
      Principal.role admin = SessionRow.role r /\
      sid = SessionRow.session_id r.
Proof.
  intros H1 H2 V1 V2 Hsid.
  rewrite (authenticate_verified req1 w t1 p1 H1 V1).
  rewrite (authenticate_verified req2 w t2 p2 H2 V2).
  rewrite <- Hsid. split; [reflexivity|].
  intros admin sid w'. unfold executeProcedure_verify_session.
  destruct (admin_auth_verify_session now (JWTPayload.session_id p1) (db w))
    as [results d]; cbn.
  destruct results as [|[|r others] more]; try discriminate.
  destruct (SessionRow.status r =? "fail"); [discriminate|].
  intros H. inversion H; subst. exists r, others, more. repeat split.
Qed.

End MiddlewareClaims.

(** ** Two failed logins at once *)

Lemma select_head_after_two_updates now d ident user rest :
  select_user d ident = user :: rest ->
  exists rest',
    select_user (update_failed_login now (AdminUser.admin_id user)
                   (update_failed_login now (AdminUser.admin_id user) d)) ident =
    update_failed_login_row now (update_failed_login_row now user) :: rest'.
Proof.
  intros H.
  destruct (select_head_after_update_failed_login now d ident user rest H)
    as [r1 E1].
  destruct (select_head_after_update_failed_login now _ ident _ r1 E1)
    as [r2 E2].
  exists r2. exact E2.
Qed.

Lemma two_updates_counter now d ident user rest :
  select_user d ident = user :: rest ->
  failed_attempts_of
    (update_failed_login now (AdminUser.admin_id user)
       (update_failed_login now (AdminUser.admin_id user) d)) ident =
  Some (AdminUser.failed_login_attempts user + 2).
Proof.
  intros H. destruct (select_head_after_two_updates now d ident user rest H)
    as [r E].
  unfold failed_attempts_of.
  rewrite E, !update_failed_login_row_counter. f_equal; lia.
Qed.

(** Had each caller written back the counter it read plus one, two
    callers that read the same row would have left one increment. *)
Lemma write_back_loses_an_increment d ident user rest :
  select_user d ident = user :: rest ->
  failed_attempts_of
    (write_back_failed_login user (write_back_failed_login user d)) ident =
  Some (AdminUser.failed_login_attempts user + 1).
Proof.
  intros H. unfold failed_attempts_of, write_back_failed_login.
  rewrite !select_user_update_account by (intros; reflexivity).
  rewrite H. cbn [map]. rewrite Z.eqb_refl. cbn.
  now rewrite Z.eqb_refl.
Qed.

Section ConcurrentFacts.

Variable bcrypt_compare : string -> string -> bool.
Variable date_to_string : Z -> string.
Variable admin_auth_login :
  Z -> string -> string -> option string -> option string ->
  Db -> list (list LoginRow.t) * Db.
Variable env : Env.
Variable now : Z.

Local Abbreviation advance_ :=
  (advance bcrypt_compare date_to_string admin_auth_login env now).
Local Abbreviation run_two_ :=
  (run_two bcrypt_compare date_to_string admin_auth_login env now).

Lemma advance_select ld ip ua w :
  advance_ ld ip ua NotStarted w =
  (Selected (select_user (db w) (req_username ld)),
   emit (EvSelectUser (req_username ld)) w).
Proof. reflexivity. Qed.

Lemma advance_wrong_password ld ip ua w user rest :
  locked_at now user = false ->
  AdminUser.is_active user = true ->
  bcrypt_compare (req_password ld) (AdminUser.password_hash user) = false ->
  advance_ ld ip ua (Selected (user :: rest)) w =
  (Finished (inl "Invalid username or password"),
   mkWorld (update_failed_login now (AdminUser.admin_id user) (db w))
           (events w ++ [EvBcryptCompare (req_password ld)
                                         (AdminUser.password_hash user);
                         EvUpdateFailedLogin (AdminUser.admin_id user)])%list).
Proof.
  intros Hl Ha Hp. unfold advance, login_with_rows.
  rewrite Hl, Ha; cbn. unfold bind, compare_password; cbn. rewrite Hp; cbn.
  unfold emit; cbn. now rewrite <- app_assoc.
Qed.

Lemma advance_locked ld ip ua w user rest :
  locked_at now user = true ->
  advance_ ld ip ua (Selected (user :: rest)) w =
  (Finished (inl ("Account is locked until "
                  ++ match AdminUser.locked_until user with
                     | Some t => date_to_string t
                     | None => "null"
                     end)),
   w).
Proof.
  intros Hl. unfold advance, login_with_rows. now rewrite Hl.
Qed.

(** The row a failed login leaves behind is locked at [now] exactly when
    the statement set the lock. *)
Lemma locked_after_update user :
  locked_at now (update_failed_login_row now user) =
  (AdminUser.failed_login_attempts user + 2 >=? 5)%Z.
Proof.
  unfold locked_at. rewrite update_failed_login_row_lock.
  destruct (AdminUser.failed_login_attempts user + 2 >=? 5)%Z; [|reflexivity].
  apply Z.ltb_lt. lia.
Qed.

End ConcurrentFacts.

Section ConcurrentClaims.

Variable bcrypt_compare : string -> string -> bool.
Variable date_to_string : Z -> string.
Variable admin_auth_login :
  Z -> string -> string -> option string -> option string ->
  Db -> list (list LoginRow.t) * Db.
Variable env : Env.
Variable now : Z.

Local Abbreviation advance_ :=
  (advance bcrypt_compare date_to_string admin_auth_login env now).
Local Abbreviation run_two_ :=
  (run_two bcrypt_compare date_to_string admin_auth_login env now).

(** The two requests run one after the other: the second one reads the
    row the first one wrote. *)
Lemma one_after_the_other (x y : LoginRequest) (w : World)
    (user : AdminUser.t) (rest : list AdminUser.t) :
  req_username y = req_username x ->
  select_user (db w) (req_username x) = user :: rest ->
  locked_at now user = false ->
  AdminUser.is_active user = true ->
  bcrypt_compare (req_password x) (AdminUser.password_hash user) = false ->
  bcrypt_compare (req_password y) (AdminUser.password_hash user) = false ->
  exists rx ry w' done,
    (let (px, w1) := advance_ x None None NotStarted w in
     let (px', w2) := advance_ x None None px w1 in
     let (py, w3) := advance_ y None None NotStarted w2 in
     let (py', w4) := advance_ y None None py w3 in
     (px', py', w4)) = (Finished rx, Finished ry, w') /\
    events w' = (events w ++ done)%list /\
    failed_attempts_of (db w') (req_username x) =
      Some (AdminUser.failed_login_attempts user
            + updates_issued (AdminUser.admin_id user) done).
Proof.
  intros Hxy Hsel Hlock Hact Hpx Hpy.
  destruct (select_head_after_update_failed_login now _ _ _ _ Hsel) as [r1 E1].
  destruct (select_head_after_two_updates now _ _ _ _ Hsel) as [r2 E2].
  rewrite advance_select, Hsel.
  rewrite advance_wrong_password by assumption.
  rewrite advance_select. cbn [db emit]. rewrite Hxy, E1.
  destruct (locked_at now (update_failed_login_row now user)) eqn:Hl2.
  - rewrite advance_locked by assumption.
    do 4 eexists. split; [reflexivity|].
    split; [unfold emit; cbn [events]; rewrite <- !app_assoc; reflexivity|].
    unfold emit; cbn [db app updates_issued]. unfold failed_attempts_of. rewrite E1.
    rewrite Z.eqb_refl, update_failed_login_row_counter. f_equal; lia.
  - rewrite advance_wrong_password by assumption.
    do 4 eexists. split; [reflexivity|].
    split; [unfold emit; cbn [events]; rewrite <- !app_assoc; reflexivity|].
    unfold emit; cbn [db app updates_issued]. unfold failed_attempts_of.
    change (AdminUser.admin_id (update_failed_login_row now user))
      with (AdminUser.admin_id user).
    rewrite E2, Z.eqb_refl, !update_failed_login_row_counter. f_equal; lia.
Qed.

(** Both requests read the row, then both write: each write is the
    statement of the store, applied to the row as it then is. *)
Ltac both_read_then_write Hsel Hselb Hc :=
  cbn [run_two]; rewrite !advance_select; cbn [db emit];
  rewrite ?Hsel, ?Hselb;
  rewrite advance_wrong_password by assumption;
  cbn [db]; rewrite ?Hsel, ?Hselb;
  rewrite advance_wrong_password by assumption;
  do 4 eexists; split; [reflexivity|];
  split; [unfold emit; cbn [events]; rewrite <- !app_assoc; reflexivity|];
  unfold emit; cbn [db app updates_issued]; rewrite Z.eqb_refl, Hc;
  repeat split; f_equal; lia.

(** C9. Two failed logins against one account, interleaved in any way
    that lets each request run its two statements: both finish, and the
    counter ends at its old value plus the number of failed-login
    updates sent, none being lost.  In particular, when both requests
    read the row before either writes it (so both saw the same counter),
    both fail as invalid credentials and the counter has gone up by two,
    not by one. *)
Theorem concurrent_failed_logins_lose_no_increment
    (a b : LoginRequest) (schedule : list bool) (w : World)
    (user : AdminUser.t) (rest : list AdminUser.t) :
  req_username b = req_username a ->
  select_user (db w) (req_username a) = user :: rest ->
  locked_at now user = false ->
  AdminUser.is_active user = true ->
  bcrypt_compare (req_password a) (AdminUser.password_hash user) = false ->
  bcrypt_compare (req_password b) (AdminUser.password_hash user) = false ->
  List.length (filter (fun x => x) schedule) = 2%nat ->
  List.length (filter negb schedule) = 2%nat ->
  exists ra rb w' done,
    run_two_ a b schedule NotStarted NotStarted w = (Finished ra, Finished rb, w') /\
    events w' = (events w ++ done)%list /\
    failed_attempts_of (db w') (req_username a) =
      Some (AdminUser.failed_login_attempts user
            + updates_issued (AdminUser.admin_id user) done) /\
    (firstn 2 schedule = [true; false] \/ firstn 2 schedule = [false; true] ->
     ra = inl "Invalid username or password" /\
     rb = inl "Invalid username or password" /\
     failed_attempts_of (db w') (req_username a) =
       Some (AdminUser.failed_login_attempts user + 2)).
Proof.
  intros Hab Hsel Hlock Hact Hpa Hpb Ht Hf.
  assert (Hselb : select_user (db w) (req_username b) = user :: rest)
    by now rewrite Hab.
  pose proof (two_updates_counter now _ _ _ _ Hsel) as Htwo.
  repeat (destruct schedule as [|[] schedule]; cbn in Ht, Hf; try lia).
  - (* a, a, b, b *)
    destruct (one_after_the_other a b w user rest Hab Hsel Hlock Hact Hpa Hpb)
      as (rx & ry & w' & done & E & Hev & Hc).
    exists rx, ry, w', done. cbn [run_two].
    split; [exact E|]. split; [exact Hev|]. split; [exact Hc|].
    intros [H|H]; discriminate H.
  - (* a, b, a, b *) both_read_then_write Hsel Hselb Htwo.
  - (* a, b, b, a *) both_read_then_write Hsel Hselb Htwo.
  - (* b, a, a, b *) both_read_then_write Hsel Hselb Htwo.
  - (* b, a, b, a *) both_read_then_write Hsel Hselb Htwo.
  - (* b, b, a, a *)
    rewrite <- Hab in Hsel.
    destruct (one_after_the_other b a w user rest (eq_sym Hab) Hsel Hlock Hact Hpb Hpa)
      as (rx & ry & w' & done & E & Hev & Hc).
    exists ry, rx, w', done. cbn [run_two]. rewrite Hab in Hc.
    split; [|split; [exact Hev|split; [exact Hc|]]].
    + destruct (advance_ b None None NotStarted w) as [p1 w1].
      destruct (advance_ b None None p1 w1) as [p2 w2].
      destruct (advance_ a None None NotStarted w2) as [p3 w3].
      destruct (advance_ a None None p3 w3) as [p4 w4].
      now inversion E.
    + intros [H|H]; discriminate H.
Qed.

End ConcurrentClaims.

(** * The properties on the sample data *)

(** A locked test administrator presenting the right password. *)
Lemma locked_account_is_refused_untouched_witness :
  exists w',
    Sample.login 1000 (mkLoginRequest "test_admin_valid" "TestAdmin@123")
                 None None (Sample.world 5 (Some 2000)) =
      (inl "Account is locked until 2000", w') /\
    db w' = Sample.store 5 (Some 2000).
Proof.
  destruct (locked_account_is_refused_untouched
              Sample.bcrypt_compare Sample.date_to_string Sample.proc env_unset 1000
              (mkLoginRequest "test_admin_valid" "TestAdmin@123") None None
              (Sample.world 5 (Some 2000)) (Sample.valid_admin 5 (Some 2000)) []
              2000 eq_refl eq_refl eq_refl)
    as (w' & E & Hdb & _).
  exists w'. split; [exact E|exact Hdb].
Defined.

(** The fourth wrong password in a row. *)
Lemma fourth_wrong_password_already_locks_witness :
  exists w',
    Sample.login 1000 (mkLoginRequest "test_admin_valid" "WrongPassword@123")
                 None None (Sample.world 3 None) =
      (inl "Invalid username or password", w') /\
    failed_attempts_of (db w') "test_admin_valid" = Some 4 /\
    locked_until_of (db w') "test_admin_valid" = Some (Some 2800).
Proof.
  exact (fourth_wrong_password_already_locks
           Sample.bcrypt_compare Sample.date_to_string Sample.proc env_unset 1000
           (mkLoginRequest "test_admin_valid" "WrongPassword@123") None None
           (Sample.world 3 None) (Sample.valid_admin 3 None) []
           eq_refl eq_refl eq_refl eq_refl eq_refl).
Defined.

(** A wrong password leaves no trace in the activity log. *)
Lemma refused_login_writes_no_activity_log_witness :
  exists msg w' done,
    Sample.login 1000 (mkLoginRequest "test_admin_valid" "WrongPassword@123")
                 None None (Sample.world 0 None) = (inl msg, w') /\
    activity_log (db w') = [] /\
    events w' = done /\
    forall procedure params, ~ In (EvCall procedure params) done.
Proof.
  exact (refused_login_writes_no_activity_log
           Sample.bcrypt_compare Sample.date_to_string Sample.proc env_unset 1000
           (mkLoginRequest "test_admin_valid" "WrongPassword@123") None None
           (Sample.world 0 None) (Sample.valid_admin 0 None) []
           eq_refl (or_intror (or_intror eq_refl))).
Defined.



(** A successful login from three recorded failures and a lock that has
    run out. *)
Lemma successful_login_clears_lockout_witness :
  exists result w',
    Sample.login 1000 (mkLoginRequest "test_admin_valid" "TestAdmin@123")
                 None None (Sample.world 3 (Some 500)) = (inr result, w') /\
    failed_attempts_of (db w') "test_admin_valid" = Some 0 /\
    locked_until_of (db w') "test_admin_valid" = Some None.
Proof.
  do 2 eexists. split; [reflexivity|].
  eapply (successful_login_clears_lockout
           Sample.uuid Sample.session_ttl Sample.bcrypt_compare
           Sample.date_to_string env_unset 1000
           (mkLoginRequest "test_admin_valid" "TestAdmin@123") None None
           (Sample.world 3 (Some 500))).
  reflexivity.
Defined.

(** One session, two tokens that disagree on the role. *)
Lemma principal_comes_from_the_session_store_witness :
  authenticate Sample.wire admin_auth_verify_session env_unset 2000
               (Sample.bearer "token.admin.sig") Sample.world_with_session =
  authenticate Sample.wire admin_auth_verify_session env_unset 2000
               (Sample.bearer "token.viewer.sig") Sample.world_with_session.
Proof.
  apply (principal_comes_from_the_session_store
           Sample.wire admin_auth_verify_session env_unset 2000
           (Sample.bearer "token.admin.sig") (Sample.bearer "token.viewer.sig")
           Sample.world_with_session "token.admin.sig" "token.viewer.sig"
           (Sample.session_claims "admin") (Sample.session_claims "viewer"));
    reflexivity.
Defined.

(** A refresh token issued under the built-in configuration, shown to
    the access-token verification. *)
Lemma token_verification_fails_closed_witness :
  verifyAccessToken env_unset 5000
    (Jwt.Jws (Jwt.mkBody (Sample.session_claims "admin") 1000 605800)
             "your_refresh_secret"
             (Jwt.mkBody (Sample.session_claims "admin") 1000 605800)) =
  inl "Invalid or expired token".
Proof.
  destruct (token_verification_fails_closed env_unset 5000 1000
              (Jwt.Jws (Jwt.mkBody (Sample.session_claims "admin") 1000 605800)
                       "your_refresh_secret"
                       (Jwt.mkBody (Sample.session_claims "admin") 1000 605800))
              (Sample.session_claims "admin")) as (_ & _ & _ & H).
  destruct (H ltac:(discriminate)) as [Hrefresh _].
  apply Hrefresh. reflexivity.
Defined.

(** The inactive test administrator presenting the right password. *)
Lemma inactive_account_is_refused_untouched_witness :
  exists w',
    Sample.login 1000 (mkLoginRequest "test_admin_inactive" "TestInactive@123")
                 None None (Sample.world 0 None) = (inl "Account is inactive", w') /\
    db w' = Sample.store 0 None.
Proof.
  destruct (inactive_account_is_refused_untouched
              Sample.bcrypt_compare Sample.date_to_string Sample.proc env_unset 1000
              (mkLoginRequest "test_admin_inactive" "TestInactive@123") None None
              (Sample.world 0 None) Sample.inactive_user []
              eq_refl eq_refl eq_refl)
    as (w' & E & Hdb & _).
  exists w'. split; [exact E|exact Hdb].
Defined.

(** Two wrong passwords at once, both reading a counter of four. *)
Lemma concurrent_failed_logins_lose_no_increment_witness :
  exists ra rb w',
    run_two Sample.bcrypt_compare Sample.date_to_string Sample.proc env_unset 1000
            (mkLoginRequest "test_admin_valid" "guess-one")
            (mkLoginRequest "test_admin_valid" "guess-two")
            [true; false; true; false] NotStarted NotStarted (Sample.world 4 None) =
      (Finished ra, Finished rb, w') /\
    failed_attempts_of (db w') "test_admin_valid" = Some 6.
Proof.
  destruct (concurrent_failed_logins_lose_no_increment
              Sample.bcrypt_compare Sample.date_to_string Sample.proc env_unset 1000
              (mkLoginRequest "test_admin_valid" "guess-one")
              (mkLoginRequest "test_admin_valid" "guess-two")
              [true; false; true; false] (Sample.world 4 None)
              (Sample.valid_admin 4 None) []
              eq_refl eq_refl eq_refl eq_refl eq_refl eq_refl eq_refl eq_refl)
    as (ra & rb & w' & done & E & _ & _ & Hboth).
  exists ra, rb, w'. split; [exact E|].
  exact (proj2 (proj2 (Hboth (or_introl eq_refl)))).
Defined.

(** A request with an empty username. *)
Lemma missing_credentials_are_rejected_before_the_store_witness :
  exists reply,
    Sample.controller 1000 (Sample.request (Some "") (Some "SomePassword@123"))
                      (Sample.world 0 None) = (reply, Sample.world 0 None) /\
    statusCode reply = 400 /\
    code reply = Some "50000".
Proof.
  destruct (missing_credentials_are_rejected_before_the_store
              Sample.bcrypt_compare Sample.bcrypt_rejection Sample.date_to_string
              Sample.proc Sample.login_other_username env_unset 1000
              (Sample.request (Some "") (Some "SomePassword@123"))
              (Sample.world 0 None) (or_intror (or_intror (or_introl eq_refl))))
    as (reply & E & Hs & Hc & _).
  exists reply. repeat split; assumption.
Defined.

(** * Further properties *)

(** ** Tokens: issue, then verify *)

Lemma verify_own_token now issued payload secret life :
  Jwt.verify now
    (Jwt.Jws (Jwt.mkBody payload issued (issued + life)) secret
             (Jwt.mkBody payload issued (issued + life))) secret =
  if (now >=? issued + life)%Z then inl "jwt expired" else inr payload.
Proof.
  cbn. now rewrite String.eqb_refl, body_eqb_refl.
Qed.

(** X1. A token issued by [generateAccessToken] is accepted by
    [verifyAccessToken] under the same configuration, with exactly the
    payload it was issued for, at every instant before its expiry, and
    refused from the expiry instant on; likewise for refresh tokens. *)
Theorem issued_tokens_verify_until_expiry
    (env : Env) (issued now : Z) (payload : JWTPayload.t)
    (la lr : Z) (access refresh : Jwt.Token) :
  Jwt.timespan (JWT_EXPIRES_IN env) = Some la ->
  Jwt.timespan (JWT_REFRESH_EXPIRES_IN env) = Some lr ->
  generateAccessToken env issued payload = inr access ->
  generateRefreshToken env issued payload = inr refresh ->
  (now < issued + la -> verifyAccessToken env now access = inr payload) /\
  (issued + la <= now ->
   verifyAccessToken env now access = inl "Invalid or expired token") /\
  (now < issued + lr -> verifyRefreshToken env now refresh = inr payload) /\
  (issued + lr <= now ->
   verifyRefreshToken env now refresh = inl "Invalid or expired refresh token").
Proof.
  unfold generateAccessToken, generateRefreshToken, Jwt.sign.
  intros Ha Hr. rewrite Ha, Hr. intros Ga Gr.
  inversion Ga; inversion Gr; subst; clear Ga Gr.
  unfold verifyAccessToken, verifyRefreshToken.
  rewrite !verify_own_token.
  repeat split; intros H.
  - destruct (now >=? issued + la)%Z eqn:E; [lia|reflexivity].
  - destruct (now >=? issued + la)%Z eqn:E; [reflexivity|lia].
  - destruct (now >=? issued + lr)%Z eqn:E; [lia|reflexivity].
  - destruct (now >=? issued + lr)%Z eqn:E; [reflexivity|lia].
Qed.

(** X2. Whatever either verification accepts, [decodeToken] reads the
    same claims from; but [decodeToken] also reads the claims of tokens
    both verifications refuse, and returns null only for what is not a
    token at all. *)
Theorem decodeToken_is_no_verification
    (env : Env) (now : Z) (token : Jwt.Token) :
  (forall p, verifyAccessToken env now token = inr p ->
             decodeToken token = Some p) /\
  (forall p, verifyRefreshToken env now token = inr p ->
             decodeToken token = Some p) /\
  (decodeToken token = None <-> exists raw, token = Jwt.Malformed raw) /\
  (forall b k signed,
     token = Jwt.Jws b k signed -> k <> JWT_SECRET env ->
     k <> JWT_REFRESH_SECRET env ->
     decodeToken token = Some (Jwt.claims b) /\
     verifyAccessToken env now token = inl "Invalid or expired token" /\
     verifyRefreshToken env now token = inl "Invalid or expired refresh token").
Proof.
  split; [|split; [|split]].
  - intros p H. destruct (access_fails_one_way env now token) as [E|(b & -> & _ & E)];
      rewrite E in H; [discriminate|]. now inversion H.
  - intros p H. destruct (refresh_fails_one_way env now token) as [E|(b & -> & _ & E)];
      rewrite E in H; [discriminate|]. now inversion H.
  - split.
    + destruct token; [eauto|discriminate].
    + intros [raw ->]. reflexivity.
  - intros b k signed -> Ha Hr.
    apply String.eqb_neq in Ha, Hr.
    unfold verifyAccessToken, verifyRefreshToken. cbn.
    now rewrite Ha, Hr.
Qed.

(** ** The middlewares *)

Section MiddlewareFacts.

Variable wire : string -> Jwt.Token.
Variable admin_auth_verify_session :
  Z -> string -> Db -> list (list SessionRow.t) * Db.
Variable env : Env.
Variable now : Z.

Local Abbreviation authenticate_ :=
  (authenticate wire admin_auth_verify_session env now).
Local Abbreviation optionalAuth_ :=
  (optionalAuth wire admin_auth_verify_session env now).
Local Abbreviation guarded_ :=
  (guarded wire admin_auth_verify_session env now).

(** X3. [optionalAuth] attaches a principal and session id exactly when
    [authenticate] would hand the request on, the very same ones, and
    leaves the world as [authenticate] would; where [authenticate] would
    answer, it attaches nothing. *)
Theorem optionalAuth_attaches_what_authenticate_admits
    (req : Request) (w : World) :
  optionalAuth_ req w =
  (match fst (authenticate_ req w) with
   | Next admin sid => Some (admin, sid)
   | Sent _ => None
   end,
   snd (authenticate_ req w)).
Proof.
  unfold optionalAuth, authenticate.
  destruct (negb (Js.truthy (authorization req))
            || negb (Js.startsWith (Js.or_else (authorization req) "") "Bearer "));
    [reflexivity|].
  destruct (verifyAccessToken env now _) as [e|payload]; [reflexivity|].
  destruct (executeProcedure_verify_session _ _ _ _) as [results w'].
  destruct results as [|[|r others] more]; try reflexivity.
  now destruct (SessionRow.status r =? "fail").
Qed.

(** X4. A request with no [Authorization] header, or one that does not
    start with [Bearer ] (capital B, one space), or whose token does not
    verify, is answered 401 with code 48000 and sends nothing to the
    store. *)
Theorem unauthenticated_request_is_refused_before_the_store
    (req : Request) (w : World) :
  authorization req = None \/
  (exists h, authorization req = Some h /\ Js.startsWith h "Bearer " = false) \/
  (exists t e, authorization req = Some ("Bearer " ++ t) /\
               verifyAccessToken env now (wire t) = inl e) ->
  exists reply,
    authenticate_ req w = (Sent reply, w) /\
    statusCode reply = 401 /\
    code reply = Some "48000" /\
    data reply = None.
Proof.
  intros [H|[(h & H & Hs)|(t & e & H & Hv)]]; unfold authenticate; rewrite H.
  - eexists. cbn. repeat split.
  - assert (E : negb (Js.truthy (Some h))
                || negb (Js.startsWith (Js.or_else (Some h) "") "Bearer ") = true).
    { unfold Js.truthy, Js.or_else.
      destruct (h =? "") eqn:Hh; [reflexivity|]. now rewrite Hs. }
    rewrite E. eexists. repeat split.
  - rewrite bearer_header_accepted. cbn [Js.or_else].
    replace (("Bearer " ++ t) =? "") with false by reflexivity.
    rewrite bearer_token, Hv. eexists. repeat split.
Qed.

(** What it takes for a guarded handler to be reached. *)
Lemma guarded_reached (roles : list string) (req : Request) (w w' : World)
    (admin : Principal.t) (sid : string) :
  guarded_ roles req w = (inl (admin, sid), w') ->
  authenticate_ req w = (Next admin sid, w') /\
  role_allowed roles (Principal.role admin) = true.
Proof.
  unfold guarded.
  destruct (authenticate_ req w) as [[a s|reply] w1]; [|discriminate].
  unfold requireRole.
  destruct (role_allowed roles (Principal.role a)) eqn:E; cbn; [|discriminate].
  intros H. inversion H; subst. auto.
Qed.

Lemma role_allowed_In roles role :
  role_allowed roles role = true <-> In role roles.
Proof.
  unfold role_allowed. rewrite existsb_exists. split.
  - intros (r & Hin & E). apply String.eqb_eq in E. now subst.
  - intros H. exists role. split; [exact H|apply String.eqb_refl].
Qed.

Lemma authenticate_admits (req : Request) (w w' : World)
    (admin : Principal.t) (sid : string) :
  authenticate_ req w = (Next admin sid, w') ->
  exists h payload r others more,
    authorization req = Some h /\
    Js.startsWith h "Bearer " = true /\
    verifyAccessToken env now (wire (Js.substring_from 7 h)) = inr payload /\
    fst (admin_auth_verify_session now (JWTPayload.session_id payload) (db w)) =
      (r :: others) :: more /\
    SessionRow.status r <> "fail" /\
    Principal.role admin = SessionRow.role r /\
    Principal.admin_id admin = SessionRow.admin_id r /\
    sid = SessionRow.session_id r.
Proof.
  unfold authenticate.
  destruct (authorization req) as [h|] eqn:Hh; [|discriminate].
  destruct (negb (Js.truthy (Some h))
            || negb (Js.startsWith (Js.or_else (Some h) "") "Bearer ")) eqn:E;
    [discriminate|].
  apply orb_false_iff in E. destruct E as [E1 E2].
  apply negb_false_iff in E1, E2. cbn in E1, E2 |- *.
  destruct (h =? "") eqn:Hne; [discriminate|].
  destruct (verifyAccessToken env now _) as [e|payload] eqn:Hv; [discriminate|].
  unfold executeProcedure_verify_session.
  destruct (admin_auth_verify_session now (JWTPayload.session_id payload) (db w))
    as [results d] eqn:Hp.
  destruct results as [|[|r others] more]; try discriminate.
  destruct (SessionRow.status r =? "fail") eqn:Hs; [discriminate|].
  intros H. inversion H; subst.
  exists h, payload, r, others, more. cbn.
  apply String.eqb_neq in Hs. repeat split; auto.
  now rewrite Hp.
Qed.

(** X6. Behind [authenticate] and a role middleware, a handler is
    reached only by a request whose bearer token verifies and whose
    session the store reports as valid, and only if the role the store
    returned for that session is one of the allowed roles; the role
    written in the token plays no part. *)
Theorem guarded_handler_needs_an_allowed_store_role
    (roles : list string) (req : Request) (w w' : World)
    (admin : Principal.t) (sid : string) :
  guarded_ roles req w = (inl (admin, sid), w') ->
  exists h payload r others more,
    authorization req = Some h /\
    Js.startsWith h "Bearer " = true /\
    verifyAccessToken env now (wire (Js.substring_from 7 h)) = inr payload /\
    fst (admin_auth_verify_session now (JWTPayload.session_id payload) (db w)) =
      (r :: others) :: more /\
    SessionRow.status r <> "fail" /\
    Principal.role admin = SessionRow.role r /\
    In (SessionRow.role r) roles.
Proof.
  intros H. apply guarded_reached in H. destruct H as [Ha Hr].
  apply authenticate_admits in Ha.
  destruct Ha as (h & payload & r & others & more & H1 & H2 & H3 & H4 & H5 & H6 & _).
  exists h, payload, r, others, more. repeat split; auto.
  apply role_allowed_In. now rewrite <- H6.
Qed.

(** X7. On every route of the admin router, a request that reaches its
    handler as a [viewer] is a [GET]; the handlers of the other methods
    are reached only as [approver] or [admin], and those that create or
    update admin users only as [admin]. *)
Theorem viewers_only_read
    (route : Route) (req : Request) (w w' : World)
    (admin : Principal.t) (sid : string) :
  In route admin_routes ->
  guarded_ (route_roles route) req w = (inl (admin, sid), w') ->
  (Principal.role admin = "viewer" -> route_method route = "GET") /\
  (route_method route <> "GET" ->
   Principal.role admin = "approver" \/ Principal.role admin = "admin") /\
  (Js.startsWith (route_path route) "/users" = true ->
   route_method route <> "GET" -> Principal.role admin = "admin").
Proof.
  intros Hin H. apply guarded_reached in H. destruct H as [_ Hr].
  apply role_allowed_In in Hr.
  unfold admin_routes in Hin. cbn [In] in Hin.
  repeat (destruct Hin as [<-|Hin];
          [cbn in Hr |- *;
           repeat split; intros;
           try reflexivity; try congruence;
           intuition (try congruence; try discriminate)|]).
  contradiction.
Qed.

End MiddlewareFacts.

(** ** The role middleware *)

(** X5. A request passes [requireRole] exactly when a principal is
    attached whose role is, letter for letter, one of the allowed roles:
    [requireAdmin] admits [admin] only, [requireApprover] also
    [approver], [requireAnyRole] also [viewer] and no other role.  What
    one of them admits, the next admits too.  Every refusal is a 403
    with code 49000. *)
Theorem role_guards_are_nested (now : Z) (admin : option Principal.t)
    (roles : list string) :
  (requireRole roles now admin = None <->
   exists a, admin = Some a /\ In (Principal.role a) roles) /\
  (requireAdmin now admin = None -> requireApprover now admin = None) /\
  (requireApprover now admin = None -> requireAnyRole now admin = None) /\
  (forall reply, requireRole roles now admin = Some reply ->
                 statusCode reply = 403 /\ code reply = Some "49000").
Proof.
  assert (Hiff : forall rs, requireRole rs now admin = None <->
                 exists a, admin = Some a /\ In (Principal.role a) rs).
  { intros rs. unfold requireRole. destruct admin as [a|].
    - destruct (role_allowed rs (Principal.role a)) eqn:E; cbn.
      + apply role_allowed_In in E. split; eauto.
      + split; [discriminate|]. intros (a' & Ha & Hin). inversion Ha; subst.
        apply role_allowed_In in Hin. congruence.
    - split; [discriminate|]. intros (a & Ha & _). discriminate. }
  split; [apply Hiff|]. split; [|split].
  - unfold requireAdmin, requireApprover. rewrite !Hiff.
    intros (a & Ha & Hin). exists a. cbn in *. intuition.
  - unfold requireApprover, requireAnyRole. rewrite !Hiff.
    intros (a & Ha & Hin). exists a. cbn in *. intuition.
  - intros reply. unfold requireRole. destruct admin as [a|].
    + destruct (role_allowed roles (Principal.role a)); cbn; [discriminate|].
      intros H. inversion H. auto.
    + intros H. inversion H. auto.
Qed.

(** ** The other controllers *)

Lemma first_row_ok {R} failed (status : R -> string) error_message
    (r : R) others more w :
  status r <> "fail" ->
  first_row failed status error_message ((r :: others) :: more) w = (inr r, w).
Proof.
  intros H. unfold first_row. apply String.eqb_neq in H. now rewrite H.
Qed.

Lemma first_row_fail {R} failed (status : R -> string) error_message
    (r : R) others more w :
  status r = "fail" ->
  first_row failed status error_message ((r :: others) :: more) w =
  (inl (error_text (error_message r)), w).
Proof.
  intros H. unfold first_row. now rewrite H.
Qed.

Section ControllerFacts.

Variable admin_auth_logout :
  Z -> string -> Z -> Db -> list (list ResultRow.t) * Db.
Variable admin_auth_refresh_token :
  Z -> string -> Z -> Db -> list (list LoginRow.t) * Db.
Variable admin_auth_reset_password :
  Z -> string -> Db -> list (list ResultRow.t) * Db.
Variable admin_auth_confirm_reset_password :
  Z -> string -> string -> Db -> list (list ResultRow.t) * Db.
Variable bcrypt_hash : string -> string.
Variable wire : string -> Jwt.Token.
Variable env : Env.
Variable node_env : option string.
Variable now : Z.

Local Abbreviation logout_ := (AuthController.logout admin_auth_logout now).
Local Abbreviation refreshToken_ :=
  (AuthController.refreshToken admin_auth_refresh_token wire env now).
Local Abbreviation forgotPassword_ :=
  (AuthController.forgotPassword admin_auth_reset_password node_env now).
Local Abbreviation resetPassword_ :=
  (AuthController.resetPassword admin_auth_confirm_reset_password bcrypt_hash now).


(** X9. A refresh request whose token verifies calls the refresh
    procedure once, with the session id and admin id of the token; when
    the procedure answers with a row that is not [fail], the reply is a
    success whose two new tokens carry the account and session of that
    row, and each verifies under the configuration until its lifetime
    has passed. *)
Theorem refresh_issues_tokens_for_the_row_returned
    (req : Req.t) (w : World) (s : string) (payload : JWTPayload.t)
    (r : LoginRow.t) (others : list LoginRow.t) (more : list (list LoginRow.t))
    (la lr : Z) :
  Req.body req "refresh_token" = Some s -> s <> "" ->
  verifyRefreshToken env now (wire s) = inr payload ->
  fst (admin_auth_refresh_token now (JWTPayload.session_id payload)
         (JWTPayload.admin_id payload) (db w)) = (r :: others) :: more ->
  LoginRow.status r <> "fail" ->
  Jwt.timespan (JWT_EXPIRES_IN env) = Some la ->
  Jwt.timespan (JWT_REFRESH_EXPIRES_IN env) = Some lr ->
  let claims :=
    JWTPayload.mk (LoginRow.admin_id r) (LoginRow.username r) (LoginRow.email r)
                  (LoginRow.role r) (LoginRow.session_id r) in
  exists result w',
    refreshToken_ req w = (sendSuccess now result, w') /\
    row result = r /\
    events w' =
      (events w ++ [EvCall "admin_auth_refresh_token"
                           [Some (JWTPayload.session_id payload);
                            number_param (JWTPayload.admin_id payload)]])%list /\
    forall t,
      (t < now + la -> verifyAccessToken env t (access_token result) = inr claims) /\
      (t < now + lr -> verifyRefreshToken env t (refresh_token result) = inr claims).
Proof.
  intros Hb Hs Hv Hp Hok Ha Hr claims.
  unfold AuthController.refreshToken. rewrite Hb.
  apply String.eqb_neq in Hs. unfold Js.truthy, Js.or_else. rewrite Hs.
  cbn [negb]. rewrite Hv.
  unfold refreshToken, bind, call.
  destruct (admin_auth_refresh_token now (JWTPayload.session_id payload)
              (JWTPayload.admin_id payload) (db w)) as [results d].
  cbn in Hp. subst results.
  rewrite first_row_ok by exact Hok.
  unfold lift, generateAccessToken, generateRefreshToken, Jwt.sign.
  rewrite Ha, Hr. unfold ret.
  do 2 eexists. split; [reflexivity|]. split; [reflexivity|].
  split; [reflexivity|].
  intros t. cbn [access_token refresh_token].
  unfold verifyAccessToken, verifyRefreshToken.
  rewrite !verify_own_token. fold claims. split; intros Ht.
  - destruct (t >=? now + la)%Z eqn:E; [lia|reflexivity].
  - destruct (t >=? now + lr)%Z eqn:E; [lia|reflexivity].
Qed.

(** X10. When the refresh procedure answers [fail], no token is issued;
    if its message mentions [Invalid or expired] the reply is 401 with
    code 48011 and the fixed message, the procedure's own message being
    dropped, and otherwise it is 500 with code 52000 and the procedure's
    message in the details. *)
Theorem failed_refresh_is_classified_by_its_message
    (req : Req.t) (w : World) (s : string) (payload : JWTPayload.t)
    (r : LoginRow.t) (others : list LoginRow.t) (more : list (list LoginRow.t)) :
  Req.body req "refresh_token" = Some s -> s <> "" ->
  verifyRefreshToken env now (wire s) = inr payload ->
  fst (admin_auth_refresh_token now (JWTPayload.session_id payload)
         (JWTPayload.admin_id payload) (db w)) = (r :: others) :: more ->
  LoginRow.status r = "fail" ->
  let msg := error_text (LoginRow.error_message r) in
  fst (refreshToken_ req w) =
  if Js.includes msg "Invalid or expired" then
    sendError now 401 "48011" (Some "Invalid or expired refresh token") None
  else
    sendError now 500 "52000" (Some "Token refresh failed") (Some msg).
Proof.
  intros Hb Hs Hv Hp Hfail msg.
  unfold AuthController.refreshToken. rewrite Hb.
  apply String.eqb_neq in Hs. unfold Js.truthy, Js.or_else. rewrite Hs.
  cbn [negb]. rewrite Hv.
  unfold refreshToken, bind, call.
  destruct (admin_auth_refresh_token now (JWTPayload.session_id payload)
              (JWTPayload.admin_id payload) (db w)) as [results d].
  cbn in Hp. subst results.
  rewrite first_row_fail by exact Hfail. fold msg.
  now destruct (Js.includes msg "Invalid or expired").
Qed.

(** X11. Logout: without an attached principal or session id the reply
    is 401 with code 48000 and nothing is sent to the store.  Otherwise
    the logout procedure is called once with that session id and the
    principal's admin id, and the reply is a success exactly when the
    procedure's first row exists and is not [fail]; every other outcome
    is a 500 with code 52000. *)
Theorem logout_outcomes (req : Req.t) (w : World) :
  (Req.admin req = None \/ Js.truthy (Req.session_id req) = false ->
   exists reply,
     logout_ req w = (reply, w) /\
     Api.statusCode reply = 401 /\ Api.code reply = Some "48000") /\
  (forall a sid,
     Req.admin req = Some a -> Req.session_id req = Some sid -> sid <> "" ->
     exists reply w',
       logout_ req w = (reply, w') /\
       events w' =
         (events w ++ [EvCall "admin_auth_logout"
                              [Some sid; number_param (Principal.admin_id a)]])%list /\
       (Api.success reply = true <->
        exists r others more,
          fst (admin_auth_logout now sid (Principal.admin_id a) (db w)) =
            (r :: others) :: more /\
          ResultRow.status r <> "fail") /\
       (Api.success reply = false ->
        Api.statusCode reply = 500 /\ Api.code reply = Some "52000" /\
        Api.message reply = Some "Logout failed")).
Proof.
  unfold AuthController.logout. split.
  - intros [H|H].
    + rewrite H. eexists. repeat split.
    + destruct (Req.admin req); rewrite ?H; eexists; repeat split.
  - intros a sid Ha Hsid Hne. rewrite Ha, Hsid.
    apply String.eqb_neq in Hne. unfold Js.truthy, Js.or_else. rewrite Hne.
    cbn [negb]. unfold logout, bind, call.
    destruct (admin_auth_logout now sid (Principal.admin_id a) (db w))
      as [results d]. cbn [fst].
    destruct results as [|[|r others] more].
    + do 2 eexists. split; [reflexivity|]. split; [reflexivity|]. cbn.
      split; [|auto]. split; [discriminate|]. intros (? & ? & ? & ? & _).
      discriminate.
    + do 2 eexists. split; [reflexivity|]. split; [reflexivity|]. cbn.
      split; [|auto]. split; [discriminate|]. intros (? & ? & ? & ? & _).
      discriminate.
    + unfold first_row. destruct (ResultRow.status r =? "fail") eqn:E.
      * do 2 eexists. split; [reflexivity|]. split; [reflexivity|]. cbn.
        split; [|auto]. split; [discriminate|].
        intros (r' & ? & ? & H & Hn). inversion H; subst.
        apply String.eqb_eq in E. contradiction.
      * do 2 eexists. split; [reflexivity|]. split; [reflexivity|]. cbn.
        split; [|discriminate]. split; [|reflexivity]. intros _.
        apply String.eqb_neq in E. eauto.
Qed.

(** X12. Outside development the forgot-password reply never carries a
    reset token: every reply either has no payload or has the one fixed
    message and no token, whatever the email and whatever the procedure
    returned.  A request with no email is answered 400 before the
    store. *)
Theorem forgot_password_keeps_the_token_outside_development
    (req : Req.t) (w : World) :
  Js.or_else node_env "" <> "development" ->
  (Api.data (fst (forgotPassword_ req w)) = None \/
   Api.data (fst (forgotPassword_ req w)) =
     Some (mkForgotData "If the email exists, a reset link will be sent" None)) /\
  (Js.truthy (Req.body req "email") = false ->
   snd (forgotPassword_ req w) = w /\
   Api.statusCode (fst (forgotPassword_ req w)) = 400).
Proof.
  intros Hdev. apply String.eqb_neq in Hdev.
  unfold AuthController.forgotPassword. split.
  - destruct (negb (Js.truthy (Req.body req "email"))); [now left|].
    destruct (requestPasswordReset _ _ _ _) as [[msg|result] w'].
    + now left.
    + right. cbn. now rewrite Hdev.
  - intros H. rewrite H. cbn. auto.
Qed.

(** X13. Reset password: with both fields present, a new password
    whose length, counted as JavaScript counts it in UTF-16 code units,
    is below eight is answered 400 and nothing is sent to the store;
    one of eight or more code units reaches the procedure, which is
    given the token and the hash of the password, never the password
    itself. *)
Theorem reset_password_checks_length_then_sends_the_hash
    (req : Req.t) (w : World) (token password : string) :
  Req.body req "token" = Some token -> token <> "" ->
  Req.body req "new_password" = Some password -> password <> "" ->
  ((js_length password < 8)%nat ->
   resetPassword_ req w =
   (Api.sendError now 400 "50000"
                  (Some "Password must be at least 8 characters long") None, w)) /\
  ((8 <= js_length password)%nat ->
   events (snd (resetPassword_ req w)) =
   (events w ++ [EvCall "admin_auth_confirm_reset_password"
                        [Some token; Some (bcrypt_hash password)]])%list).
Proof.
  intros Ht Htne Hp Hpne.
  apply String.eqb_neq in Htne, Hpne.
  unfold AuthController.resetPassword. rewrite Ht, Hp.
  unfold Js.truthy, Js.or_else. rewrite Htne, Hpne. cbn [negb orb].
  split; intros Hlen.
  - apply Nat.ltb_lt in Hlen. now rewrite Hlen.
  - apply Nat.ltb_ge in Hlen. rewrite Hlen.
    unfold confirmPasswordReset, bind, call.
    destruct (admin_auth_confirm_reset_password now token (bcrypt_hash password) (db w))
      as [results d].
    destruct (first_row _ _ _ results _) as [[msg|r] w'] eqn:E;
      unfold first_row in E;
      destruct results as [|[|r0 others] more];
      try destruct (ResultRow.status r0 =? "fail");
      inversion E; subst; reflexivity.
Qed.

End ControllerFacts.

(** ** Login, further *)

Lemma login_procedure_called_app l l' :
  login_procedure_called (l ++ l') =
  login_procedure_called l || login_procedure_called l'.
Proof.
  induction l as [|e l IH]; cbn; [reflexivity|].
  destruct e; cbn; rewrite IH; try reflexivity. now rewrite orb_assoc.
Qed.

Lemma comparisons_app l l' :
  comparisons (l ++ l') = (comparisons l + comparisons l')%nat.
Proof.
  induction l as [|e l IH]; cbn; [reflexivity|].
  destruct e; cbn; now rewrite IH.
Qed.

Section LoginFurther.

Variable bcrypt_compare : string -> string -> bool.
Variable date_to_string : Z -> string.
Variable admin_auth_login :
  Z -> string -> string -> option string -> option string ->
  Db -> list (list LoginRow.t) * Db.
Variable env : Env.

Local Abbreviation login_ :=
  (login bcrypt_compare date_to_string admin_auth_login env).
Local Abbreviation login_each_ :=
  (login_each bcrypt_compare date_to_string admin_auth_login env).

(** X14. The login procedure, which creates the session, is called by
    [login] only for an identifier that selects an account, unlocked and
    active, whose stored hash the submitted password has just matched;
    and it is given that stored hash.  No other login reaches it. *)
Theorem session_procedure_needs_a_verified_password
    (now : Z) (loginData : LoginRequest) (ip ua : option string) (w : World) :
  login_procedure_called (events w) = false ->
  login_procedure_called (events (snd (login_ now loginData ip ua w))) = true ->
  exists user rest,
    select_user (db w) (req_username loginData) = user :: rest /\
    locked_at now user = false /\
    AdminUser.is_active user = true /\
    bcrypt_compare (req_password loginData) (AdminUser.password_hash user) = true /\
    events (snd (login_ now loginData ip ua w)) =
      (events w ++ [EvSelectUser (req_username loginData);
                    EvBcryptCompare (req_password loginData)
                                    (AdminUser.password_hash user);
                    EvCall "admin_auth_login"
                           [Some (req_username loginData);
                            Some (AdminUser.password_hash user);
                            or_null ip; or_null ua]])%list.
Proof.
  intros Hbefore.
  destruct (select_user (db w) (req_username loginData)) as [|user rest] eqn:Hsel.
  { rewrite login_not_found by exact Hsel. cbn.
    rewrite login_procedure_called_app, Hbefore. discriminate. }
  destruct (locked_at now user) eqn:Hlock.
  { unfold locked_at in Hlock.
    destruct (AdminUser.locked_until user) as [t|] eqn:Ht; [|discriminate].
    apply Z.ltb_lt in Hlock.
    rewrite (login_locked _ _ _ _ _ _ _ _ _ _ _ t Hsel Ht Hlock). cbn.
    rewrite login_procedure_called_app, Hbefore. discriminate. }
  destruct (AdminUser.is_active user) eqn:Hact.
  2:{ rewrite (login_inactive _ _ _ _ _ _ _ _ _ _ _ Hsel Hlock Hact). cbn.
      rewrite login_procedure_called_app, Hbefore. discriminate. }
  destruct (bcrypt_compare (req_password loginData) (AdminUser.password_hash user))
    eqn:Hpw.
  2:{ rewrite (login_wrong_password _ _ _ _ _ _ _ _ _ _ _ Hsel Hlock Hact Hpw). cbn.
      rewrite login_procedure_called_app, Hbefore. discriminate. }
  intros _. exists user, rest. repeat split; try assumption.
  unfold login, bind, executeQuery_select_user; cbn.
  rewrite Hsel; cbn. rewrite Hlock, Hact; cbn.
  unfold compare_password, bind; cbn. rewrite Hpw; cbn.
  unfold executeProcedure_login.
  destruct (admin_auth_login now _ _ _ _ _) as [results d]. cbn.
  destruct results as [|[|r others] more]; cbn;
    try (unfold throw, emit; cbn; now rewrite <- !app_assoc).
  destruct (LoginRow.status r =? "fail");
    [unfold throw, emit; cbn; now rewrite <- !app_assoc|].
  unfold lift.
  destruct (generateAccessToken env now _);
    [unfold emit; cbn; now rewrite <- !app_assoc|].
  destruct (generateRefreshToken env now _);
    unfold ret, emit; cbn; now rewrite <- !app_assoc.
Qed.

(** X15. Under a configuration whose two lifetimes [Jwt.timespan]
    reads, the tokens a successful login returns are issued for the
    account and session of the row the procedure returned, and each is
    accepted by its verification, with those claims, until its
    lifetime has passed. *)
Theorem login_tokens_carry_the_session
    (now : Z) (loginData : LoginRequest) (ip ua : option string)
    (w w' : World) (result : LoginResult) (access_life refresh_life : Z) :
  Jwt.timespan (JWT_EXPIRES_IN env) = Some access_life ->
  Jwt.timespan (JWT_REFRESH_EXPIRES_IN env) = Some refresh_life ->
  login_ now loginData ip ua w = (inr result, w') ->
  let claims :=
    JWTPayload.mk (LoginRow.admin_id (row result)) (LoginRow.username (row result))
                  (LoginRow.email (row result)) (LoginRow.role (row result))
                  (LoginRow.session_id (row result)) in
  decodeToken (access_token result) = Some claims /\
  decodeToken (refresh_token result) = Some claims /\
  forall t,
    (t < now + access_life ->
     verifyAccessToken env t (access_token result) = inr claims) /\
    (t < now + refresh_life ->
     verifyRefreshToken env t (refresh_token result) = inr claims).
Proof.
  intros Hla Hlr.
  unfold login, bind, executeQuery_select_user; cbn.
  destruct (select_user (db w) (req_username loginData)) as [|user rest];
    cbn; [discriminate|].
  destruct (locked_at now user); [discriminate|].
  destruct (AdminUser.is_active user); cbn; [|discriminate].
  unfold compare_password, bind; cbn.
  destruct (bcrypt_compare _ _); cbn; [|discriminate].
  unfold executeProcedure_login.
  destruct (admin_auth_login now _ _ _ _ _) as [results d]. cbn.
  destruct results as [|[|r others] more]; cbn; try discriminate.
  destruct (LoginRow.status r =? "fail"); [discriminate|].
  unfold lift, generateAccessToken, generateRefreshToken, Jwt.sign.
  rewrite Hla, Hlr.
  intros H. inversion H; subst; clear H. cbn.
  do 2 (split; [reflexivity|]).
  intros t. split; intros Ht;
    unfold verifyAccessToken, verifyRefreshToken; rewrite verify_own_token.
  - destruct (t >=? now + access_life)%Z eqn:E; [lia|reflexivity].
  - destruct (t >=? now + refresh_life)%Z eqn:E; [lia|reflexivity].
Qed.

(** X16. Once a lock has run out, the counter is still where it was: a
    single wrong password on an account with three or more recorded
    failures and a past [locked_until] locks it again at once, for
    thirty minutes from that attempt. *)
Theorem wrong_password_after_an_expired_lock_locks_again
    (now : Z) (loginData : LoginRequest) (ip ua : option string) (w : World)
    (user : AdminUser.t) (rest : list AdminUser.t) (t : Z) :
  select_user (db w) (req_username loginData) = user :: rest ->
  AdminUser.locked_until user = Some t -> t <= now ->
  3 <= AdminUser.failed_login_attempts user ->
  AdminUser.is_active user = true ->
  bcrypt_compare (req_password loginData) (AdminUser.password_hash user) = false ->
  exists w',
    login_ now loginData ip ua w = (inl "Invalid username or password", w') /\
    failed_attempts_of (db w') (req_username loginData) =
      Some (AdminUser.failed_login_attempts user + 1) /\
    locked_until_of (db w') (req_username loginData) = Some (Some (now + 30 * 60)).
Proof.
  intros Hsel Hl Hle Hc Hact Hpw.
  assert (Hlock : locked_at now user = false).
  { unfold locked_at. rewrite Hl. apply Z.ltb_ge. lia. }
  eexists. split.
  { now apply login_wrong_password with (user := user) (rest := rest). }
  cbn [db].
  destruct (select_head_after_update_failed_login now _ _ _ _ Hsel) as [rest' E].
  unfold failed_attempts_of, locked_until_of. rewrite E.
  rewrite update_failed_login_row_counter, update_failed_login_row_lock.
  split; [reflexivity|].
  destruct (AdminUser.failed_login_attempts user + 2 >=? 5)%Z eqn:A; [|lia].
  do 2 f_equal.
Qed.

End LoginFurther.

(** ** Guessing passwords *)

Section Guessing.

Variable bcrypt_compare : string -> string -> bool.
Variable date_to_string : Z -> string.
Variable admin_auth_login :
  Z -> string -> string -> option string -> option string ->
  Db -> list (list LoginRow.t) * Db.
Variable env : Env.

Local Abbreviation login_ :=
  (login bcrypt_compare date_to_string admin_auth_login env).
Local Abbreviation login_each_ :=
  (login_each bcrypt_compare date_to_string admin_auth_login env).

(** Wrong guesses within half an hour of [t0], from a counter [c] of at
    most four: below four the account is open from [t0] on, at four it is
    locked beyond the half hour. *)
Lemma wrong_guesses_stop_at_four
    (ident h : string) (t0 : Z) (attempts : list (Z * string)) :
  Forall (fun a => t0 <= fst a < t0 + 30 * 60 /\ bcrypt_compare (snd a) h = false)
         attempts ->
  forall (w : World) (c : Z),
    0 <= c <= 4 ->
    (exists user rest,
       select_user (db w) ident = user :: rest /\
       AdminUser.failed_login_attempts user = c /\
       AdminUser.is_active user = true /\
       AdminUser.password_hash user = h /\
       ((c < 4 /\ forall t, t0 <= t -> locked_at t user = false) \/
        (c = 4 /\ exists l, AdminUser.locked_until user = Some l /\
                            t0 + 30 * 60 <= l))) ->
    let n := Z.of_nat (List.length attempts) in
    let out := login_each_ ident attempts w in
    failed_attempts_of (db (snd out)) ident = Some (Z.min (c + n) 4) /\
    comparisons (events (snd out)) =
      (comparisons (events w) + Z.to_nat (Z.min (c + n) 4 - c))%nat /\
    Forall (fun r => exists e, r = inl e) (fst out).
Proof.
  induction 1 as [|[t p] attempts [[Ht0 Ht1] Hp] _ IH]; intros w c Hc Hst.
  - cbn. destruct Hst as (user & rest & Hsel & Hcount & _).
    unfold failed_attempts_of. rewrite Hsel, Hcount.
    repeat split; [f_equal; lia| |constructor].
    replace (Z.min (c + 0) 4 - c) with 0 by lia. cbn. lia.
  - cbn in Ht0, Ht1, Hp. cbn [login_each List.length].
    destruct Hst as (user & rest & Hsel & Hcount & Hact & Hh & Hlock).
    destruct Hlock as [[Hlt Hopen]|[Hfour (l & Hl & Hfar)]].
    + (* below four: the guess is compared and counted *)
      rewrite (login_wrong_password bcrypt_compare date_to_string admin_auth_login
                 env t (mkLoginRequest ident p) None None w user rest
                 Hsel (Hopen t Ht0) Hact ltac:(cbn; rewrite Hh; exact Hp)).
      cbn [req_username req_password].
      destruct (select_head_after_update_failed_login t _ _ _ _ Hsel) as [rest' E].
      match goal with
      | |- context [login_each_ ident attempts ?w1] =>
          specialize (IH w1 (c + 1))
      end.
      cbn [db events] in IH.
      destruct (login_each_ ident attempts _) as [rs w2]. cbn [fst snd] in *.
      destruct IH as (I1 & I2 & I3); [lia| |].
      { exists (update_failed_login_row t user), rest'.
        split; [exact E|].
        rewrite update_failed_login_row_counter. split; [lia|].
        split; [exact Hact|]. split; [exact Hh|].
        destruct (Z.eq_dec c 3) as [->|Hne].
        - right. split; [lia|]. exists (t + 1800).
          rewrite update_failed_login_row_lock, Hcount. cbn. split; [reflexivity|lia].
        - left. split; [lia|]. intros t' _. unfold locked_at.
          rewrite update_failed_login_row_lock, Hcount.
          destruct (c + 2 >=? 5)%Z eqn:A; [lia|reflexivity]. }
      split; [rewrite I1; f_equal; lia|].
      split; [|constructor; eauto].
      rewrite I2, !comparisons_app. cbn [comparisons]. lia.
    + (* at four: the account is locked, nothing is compared *)
      assert (Hlt : t < l) by lia.
      rewrite (login_locked bcrypt_compare date_to_string admin_auth_login
                 env t (mkLoginRequest ident p) None None w user rest l
                 Hsel Hl Hlt).
      match goal with
      | |- context [login_each_ ident attempts ?w1] =>
          specialize (IH w1 c)
      end.
      cbn [db events emit] in IH.
      destruct (login_each_ ident attempts _) as [rs w2]. cbn [fst snd] in *.
      destruct IH as (I1 & I2 & I3); [lia| |].
      { exists user, rest. repeat split; try assumption.
        right. split; [exact Hfour|]. eauto. }
      split; [rewrite I1; f_equal; lia|].
      split; [|constructor; eauto].
      rewrite I2, comparisons_app. cbn [comparisons]. lia.
Qed.


End Guessing.

(** ** Pagination *)

(** X18. For a positive page size and non-negative total and offset,
    [calculatePagination] returns the number of pages that just holds
    the total, and the page, counted from one, that holds the offset; an
    offset within the total lies on a page within the number of pages.
    With a page size of zero neither number is one. *)
Theorem pagination_counts_pages (total limit offset : Z) :
  (0 < limit -> 0 <= total -> 0 <= offset ->
   exists pages page,
     total_pages (calculatePagination total limit offset) = Some pages /\
     current_page (calculatePagination total limit offset) = Some page /\
     (pages - 1) * limit < total <= pages * limit /\
     (page - 1) * limit <= offset < page * limit /\
     1 <= page /\
     (offset < total -> page <= pages)) /\
  (limit = 0 ->
   total_pages (calculatePagination total limit offset) = None /\
   current_page (calculatePagination total limit offset) = None).
Proof.
  split.
  - intros Hl Ht Ho. unfold calculatePagination; cbn.
    destruct (limit =? 0)%Z eqn:E; [lia|].
    do 2 eexists. split; [reflexivity|]. split; [reflexivity|].
    pose proof (Z.div_mod (- total) limit ltac:(lia)) as D1.
    pose proof (Z.mod_pos_bound (- total) limit Hl) as B1.
    pose proof (Z.div_mod offset limit ltac:(lia)) as D2.
    pose proof (Z.mod_pos_bound offset limit Hl) as B2.
    repeat split; nia.
  - intros ->. split; reflexivity.
Qed.

(** * The further properties on the sample data *)

(** An access token issued at 1000 under the built-in configuration,
    verified at 2000. *)
Lemma issued_tokens_verify_until_expiry_witness :
  verifyAccessToken env_unset 2000 (Sample.session_token "admin") =
  inr (Sample.session_claims "admin").
Proof.
  destruct (issued_tokens_verify_until_expiry env_unset 1000 2000
              (Sample.session_claims "admin") 28800 604800
              (Sample.session_token "admin") Fixture.refresh_token
              eq_refl eq_refl eq_refl eq_refl) as (H & _).
  apply H. reflexivity.
Defined.

(** A token signed with a key of the sender's own. *)
Lemma decodeToken_is_no_verification_witness :
  let b := Jwt.mkBody (Sample.session_claims "admin") 1000 29800 in
  decodeToken (Jwt.Jws b "my-own-key" b) = Some (Sample.session_claims "admin") /\
  verifyAccessToken env_unset 2000 (Jwt.Jws b "my-own-key" b) =
    inl "Invalid or expired token" /\
  verifyRefreshToken env_unset 2000 (Jwt.Jws b "my-own-key" b) =
    inl "Invalid or expired refresh token".
Proof.
  intros b.
  destruct (decodeToken_is_no_verification env_unset 2000 (Jwt.Jws b "my-own-key" b))
    as (_ & _ & _ & H).
  apply (H b "my-own-key" b eq_refl); discriminate.
Defined.

(** A request without an [Authorization] header. *)
Lemma unauthenticated_request_is_refused_before_the_store_witness :
  exists reply,
    authenticate Sample.wire admin_auth_verify_session env_unset 2000
                 (Sample.request None None) Sample.world_with_session =
      (Sent reply, Sample.world_with_session) /\
    statusCode reply = 401.
Proof.
  destruct (unauthenticated_request_is_refused_before_the_store
              Sample.wire admin_auth_verify_session env_unset 2000
              (Sample.request None None) Sample.world_with_session
              (or_introl eq_refl)) as (reply & E & Hs & _).
  exists reply. split; [exact E|exact Hs].
Defined.

(** An approver passes the approver guard, hence the any-role guard. *)
Lemma role_guards_are_nested_witness :
  requireAnyRole 2000
    (Some (Principal.mk 7 "appr" "appr@example.com" "approver" false true 0 0 0)) =
  None.
Proof.
  destruct (role_guards_are_nested 2000
              (Some (Principal.mk 7 "appr" "appr@example.com" "approver"
                                  false true 0 0 0)) [])
    as (_ & _ & H & _).
  apply H. reflexivity.
Defined.

(** The token that says [viewer], for the session of an [admin], on an
    admin-only route. *)
Lemma guarded_handler_needs_an_allowed_store_role_witness :
  exists r : SessionRow.t,
    SessionRow.role r = "admin" /\ In (SessionRow.role r) ["admin"].
Proof.
  destruct (guarded_handler_needs_an_allowed_store_role
              Sample.wire admin_auth_verify_session env_unset 2000
              ["admin"] (Sample.bearer "token.viewer.sig")
              Sample.world_with_session
              (mkWorld (db Sample.world_with_session)
                       [EvCall "admin_auth_verify_session" [Some "6f1c0a52-0000"]])
              (Principal.mk 1 "test_admin_valid" "test_admin@example.com" "admin"
                            false true 0 2000 2000)
              "6f1c0a52-0000" eq_refl)
    as (h & payload & r & others & more & _ & _ & _ & _ & _ & Hrole & Hin).
  exists r. split; [symmetry; exact Hrole|exact Hin].
Defined.

(** The same request on the route that creates admin users. *)
Lemma viewers_only_read_witness :
  Principal.role (Principal.mk 1 "test_admin_valid" "test_admin@example.com" "admin"
                               false true 0 2000 2000) = "admin".
Proof.
  destruct (viewers_only_read
              Sample.wire admin_auth_verify_session env_unset 2000
              (mkRoute "POST" "/users" admin_only)
              (Sample.bearer "token.viewer.sig")
              Sample.world_with_session
              (mkWorld (db Sample.world_with_session)
                       [EvCall "admin_auth_verify_session" [Some "6f1c0a52-0000"]])
              (Principal.mk 1 "test_admin_valid" "test_admin@example.com" "admin"
                            false true 0 2000 2000)
              "6f1c0a52-0000" (or_introl eq_refl) eq_refl)
    as (_ & _ & H).
  apply H; [reflexivity|discriminate].
Defined.


(** A refresh with the refresh token of the session. *)
Lemma refresh_issues_tokens_for_the_row_returned_witness :
  exists result w',
    AuthController.refreshToken Fixture.refresh_proc Fixture.wire env_unset 2000
                                (Fixture.req [("refresh_token", "refresh.admin.sig")])
                                (Sample.world 0 None) =
      (sendSuccess 2000 result, w') /\
    LoginRow.session_id (row result) = "6f1c0a52-0000".
Proof.
  destruct (refresh_issues_tokens_for_the_row_returned
              Fixture.refresh_proc Fixture.wire env_unset 2000
              (Fixture.req [("refresh_token", "refresh.admin.sig")])
              (Sample.world 0 None) "refresh.admin.sig"
              (Sample.session_claims "admin")
              (LoginRow.mk "success" None None None 1 "test_admin_valid"
                           "test_admin@example.com" "admin" "6f1c0a52-0000"
                           30800 false)
              [] [] 28800 604800
              eq_refl ltac:(discriminate) eq_refl eq_refl ltac:(discriminate)
              eq_refl eq_refl)
    as (result & w' & E & Hrow & _).
  exists result, w'. split; [exact E|]. now rewrite Hrow.
Defined.

(** A refresh for a session the procedure reports gone. *)
Lemma failed_refresh_is_classified_by_its_message_witness :
  fst (AuthController.refreshToken Fixture.refresh_gone_proc Fixture.wire env_unset 2000
         (Fixture.req [("refresh_token", "refresh.admin.sig")])
         (Sample.world 0 None)) =
  sendError 2000 401 "48011" (Some "Invalid or expired refresh token") None.
Proof.
  exact (failed_refresh_is_classified_by_its_message
           Fixture.refresh_gone_proc Fixture.wire env_unset 2000
           (Fixture.req [("refresh_token", "refresh.admin.sig")])
           (Sample.world 0 None) "refresh.admin.sig"
           (Sample.session_claims "admin")
           (fail_row "48010" "Invalid or expired session") [] []
           eq_refl ltac:(discriminate) eq_refl eq_refl eq_refl).
Defined.

(** A logout request nothing was attached to. *)
Lemma logout_outcomes_witness :
  exists reply,
    AuthController.logout Fixture.logout_proc 2000 (Fixture.req [])
                          (Sample.world 0 None) = (reply, Sample.world 0 None) /\
    Api.statusCode reply = 401.
Proof.
  destruct (logout_outcomes Fixture.logout_proc 2000 (Fixture.req [])
                            (Sample.world 0 None)) as [H _].
  destruct (H (or_introl eq_refl)) as (reply & E & Hs & _).
  exists reply. split; [exact E|exact Hs].
Defined.

(** A forgot-password request in production, the procedure returning a
    token. *)
Lemma forgot_password_keeps_the_token_outside_development_witness :
  Api.data (fst (AuthController.forgotPassword Fixture.reset_proc (Some "production")
                   2000 (Fixture.req [("email", "test_admin@example.com")])
                   (Sample.world 0 None))) =
  Some (mkForgotData "If the email exists, a reset link will be sent" None).
Proof.
  destruct (forgot_password_keeps_the_token_outside_development
              Fixture.reset_proc (Some "production") 2000
              (Fixture.req [("email", "test_admin@example.com")])
              (Sample.world 0 None) ltac:(discriminate)) as [[H|H] _].
  - discriminate H.
  - exact H.
Defined.

(** A new password of seven accented letters: seven code units, held
    in fourteen bytes. *)
Lemma reset_password_checks_length_then_sends_the_hash_witness :
  AuthController.resetPassword Fixture.confirm_proc Fixture.bcrypt_hash 2000
    (Fixture.req [("token", "reset-7c1e"); ("new_password", "ééééééé")])
    (Sample.world 0 None) =
  (Api.sendError 2000 400 "50000"
                 (Some "Password must be at least 8 characters long") None,
   Sample.world 0 None).
Proof.
  destruct (reset_password_checks_length_then_sends_the_hash
              Fixture.confirm_proc Fixture.bcrypt_hash 2000
              (Fixture.req [("token", "reset-7c1e"); ("new_password", "ééééééé")])
              (Sample.world 0 None) "reset-7c1e" "ééééééé"
              eq_refl ltac:(discriminate) eq_refl ltac:(discriminate)) as [H _].
  apply H. vm_compute. lia.
Defined.

(** The login of the test administrator with the right password. *)
Lemma session_procedure_needs_a_verified_password_witness :
  exists user,
    Sample.bcrypt_compare "TestAdmin@123" (AdminUser.password_hash user) = true /\
    AdminUser.username user = "test_admin_valid".
Proof.
  destruct (session_procedure_needs_a_verified_password
              Sample.bcrypt_compare Sample.date_to_string Sample.proc env_unset 1000
              (mkLoginRequest "test_admin_valid" "TestAdmin@123") None None
              (Sample.world 0 None) eq_refl eq_refl)
    as (user & rest & Hsel & _ & _ & Hpw & _).
  exists user. split; [exact Hpw|].
  inversion Hsel. reflexivity.
Defined.

(** The tokens of that login, an hour later. *)
Lemma login_tokens_carry_the_session_witness :
  exists result w',
    Sample.login 1000 (mkLoginRequest "test_admin_valid" "TestAdmin@123")
                 None None (Sample.world 0 None) = (inr result, w') /\
    verifyAccessToken env_unset 4600 (access_token result) =
      inr (Sample.session_claims "admin").
Proof.
  do 2 eexists. split; [reflexivity|].
  edestruct (login_tokens_carry_the_session
               Sample.bcrypt_compare Sample.date_to_string Sample.proc env_unset 1000
               (mkLoginRequest "test_admin_valid" "TestAdmin@123") None None
               (Sample.world 0 None)) as (_ & _ & H);
    [reflexivity|reflexivity|reflexivity|].
  destruct (H 4600) as [Hacc _].
  apply Hacc. reflexivity.
Defined.

(** A wrong password half a minute after a lock ran out. *)
Lemma wrong_password_after_an_expired_lock_locks_again_witness :
  exists w',
    Sample.login 1000 (mkLoginRequest "test_admin_valid" "WrongPassword@123")
                 None None (Sample.world 4 (Some 970)) =
      (inl "Invalid username or password", w') /\
    locked_until_of (db w') "test_admin_valid" = Some (Some 2800).
Proof.
  destruct (wrong_password_after_an_expired_lock_locks_again
              Sample.bcrypt_compare Sample.date_to_string Sample.proc env_unset 1000
              (mkLoginRequest "test_admin_valid" "WrongPassword@123") None None
              (Sample.world 4 (Some 970)) (Sample.valid_admin 4 (Some 970)) [] 970
              eq_refl eq_refl ltac:(lia) ltac:(cbn; lia) eq_refl eq_refl)
    as (w' & E & _ & Hl).
  exists w'. split; [exact E|exact Hl].
Defined.


(** The third page of 101 rows, fifty a page. *)
Lemma pagination_counts_pages_witness :
  total_pages (calculatePagination 101 50 100) = Some 3 /\
  current_page (calculatePagination 101 50 100) = Some 3.
Proof.
  destruct (pagination_counts_pages 101 50 100) as [H _].
  destruct (H ltac:(lia) ltac:(lia) ltac:(lia))
    as (pages & page & Hp & Hc & _).
  split; reflexivity.
Defined.
